(** * INSEC server: ingestion, detection and query handlers

    A shallow embedding of the Go server of the INSEC platform
    (server/models.go, server/handlers.go, server/middleware.go and
    server/main.go) together with the properties of its
    ingestion -> detection -> alert pipeline.

    Conventions of the embedding:
    - Go structs are records, one module per struct so that the field
      names of the source can be kept ([Event.TenantID], [Alert.TenantID]);
    - pointers that may be nil ([*ProcessInfo], [*uint64], ...) are options;
    - unsigned integers are [N], signed ones and [time.Time] are [Z];
    - [map[string]interface{}] and [gin.H] are finite maps with string keys;
    - the handlers run in a state monad over a [World]: the database tables,
      the logger output, the goroutines spawned so far, and two counters
      that index the external oracles (clock readings, storage faults). *)

From Stdlib Require Import ZArith NArith String Ascii List Bool Lia.
From stdpp Require Import base option list gmap strings sorting.
Import ListNotations.

Local Open Scope string_scope.
Local Open Scope Z_scope.
Local Open Scope list_scope.

(* ===================================================================== *)
(** ** Data model (server/models.go) *)
(* ===================================================================== *)

Module User.
Record t := mk {
  ID : string;
  Email : string;
  Dept : string;
  RiskScore : option Z;
  CreatedAt : Z;
  UpdatedAt : Z
}.
End User.

Module OS.
Record t := mk {
  Family : string;
  Version : string;
  Arch : string
}.
End OS.

Module EventData.
Record t := mk {
  Type_ : string;
  ID : string;
  Category : string
}.
End EventData.

(** [CPUUsage float32] is left out: no handler reads it. *)
Module ProcessInfo.
Record t := mk {
  Name : string;
  Cmd : list string;
  PPID : N;
  PID : N;
  Hash : option string;
  User : option string;
  MemoryUsage : N
}.
End ProcessInfo.

Module NetworkInfo.
Record t := mk {
  SrcIP : option string;
  DstIP : string;
  DstPort : N;
  Protocol : string;
  BytesIn : N;
  BytesOut : N;
  Domain : option string
}.
End NetworkInfo.

Module FileInfo.
Record t := mk {
  Path : string;
  Operation : string;
  Size : option N;
  Hash : option string;
  User : option string
}.
End FileInfo.

Module Agent.
Record t := mk {
  Version : string;
  Mode : string;
  Hostname : string
}.
End Agent.

Module Event.
Record t := mk {
  ID : N;
  Timestamp : Z;
  TenantID : string;
  HostID : string;
  User : User.t;
  OS : OS.t;
  Event : EventData.t;
  Process : option ProcessInfo.t;
  Network : option NetworkInfo.t;
  File : option FileInfo.t;
  Labels : list string;
  RiskHints : list string;
  Agent : Agent.t;
  SessionID : string;
  CreatedAt : Z;
  UpdatedAt : Z
}.

(** The three assignments of the ingestion loop. *)
Definition set_ID (v : N) (e : t) : t :=
  mk v (Timestamp e) (TenantID e) (HostID e) (User e) (OS e) (Event e)
     (Process e) (Network e) (File e) (Labels e) (RiskHints e) (Agent e)
     (SessionID e) (CreatedAt e) (UpdatedAt e).
Definition set_CreatedAt (v : Z) (e : t) : t :=
  mk (ID e) (Timestamp e) (TenantID e) (HostID e) (User e) (OS e) (Event e)
     (Process e) (Network e) (File e) (Labels e) (RiskHints e) (Agent e)
     (SessionID e) v (UpdatedAt e).
Definition set_UpdatedAt (v : Z) (e : t) : t :=
  mk (ID e) (Timestamp e) (TenantID e) (HostID e) (User e) (OS e) (Event e)
     (Process e) (Network e) (File e) (Labels e) (RiskHints e) (Agent e)
     (SessionID e) (CreatedAt e) v.
End Event.

Module Alert.
Record t := mk {
  ID : N;
  CreatedAt : Z;
  Severity : string;
  Title : string;
  Description : string;
  TenantID : string;
  RuleID : string;
  RuleVersion : string;
  UEBAScore : Z;
  Entities : gmap string string;
  Evidence : list string;
  Status : string;
  Assignee : option string;
  ResolvedAt : option Z
}.

Definition set_ID (v : N) (a : t) : t :=
  mk v (CreatedAt a) (Severity a) (Title a) (Description a) (TenantID a)
     (RuleID a) (RuleVersion a) (UEBAScore a) (Entities a) (Evidence a)
     (Status a) (Assignee a) (ResolvedAt a).
End Alert.

(* ===================================================================== *)
(** ** The pieces of the Go library that the handlers call *)
(* ===================================================================== *)

(** [strings.HasPrefix]. *)
Fixpoint HasPrefix (s pre : string) : bool :=
  match pre, s with
  | EmptyString, _ => true
  | String c pre', String d s' => Ascii.eqb c d && HasPrefix s' pre'
  | String _ _, EmptyString => false
  end.

(** [strings.Contains]: [substr] occurs somewhere in [s]. *)
Fixpoint Contains (s substr : string) : bool :=
  HasPrefix s substr ||
  match s with
  | EmptyString => false
  | String _ s' => Contains s' substr
  end.

(** [strings.TrimPrefix]: [s] without the leading [pre], or [s] itself. *)
Fixpoint drop_chars (n : nat) (s : string) : string :=
  match n, s with
  | O, _ => s
  | S n', String _ s' => drop_chars n' s'
  | S _, EmptyString => EmptyString
  end.

Definition TrimPrefix (s pre : string) : string :=
  if HasPrefix s pre then drop_chars (String.length pre) s else s.

(** [strconv.Atoi] as the handlers use it: the error is discarded
    ([page, _ := strconv.Atoi(...)]), so only the value matters. The
    functions follow strconv for base 10 and 64 bits. *)
Definition maxInt64 : Z := 2 ^ 63 - 1.
Definition minInt64 : Z := - 2 ^ 63.
Definition maxUint64 : Z := 2 ^ 64 - 1.

Inductive NumError := ErrSyntax | ErrRange.

Definition digit_of (ch : ascii) : option Z :=
  let d := Z.of_N (N_of_ascii ch) - 48 in
  if (0 <=? d) && (d <=? 9) then Some d else None.

(** The loop of [strconv.ParseUint]: a byte that is no digit ends it with
    a syntax error and value 0; the digit that takes the value past
    [maxUint64] ends it with a range error and value [maxUint64], whatever
    follows. *)
Fixpoint ParseUint_loop (n : Z) (s : string) : Z * option NumError :=
  match s with
  | EmptyString => (n, None)
  | String c s' =>
      match digit_of c with
      | None => (0, Some ErrSyntax)
      | Some d =>
          if maxUint64 <? n * 10 + d then (maxUint64, Some ErrRange)
          else ParseUint_loop (n * 10 + d) s'
      end
  end.

Definition ParseUint (s : string) : Z * option NumError :=
  match s with
  | EmptyString => (0, Some ErrSyntax)
  | String _ _ => ParseUint_loop 0 s
  end.

(** [strconv.ParseInt(s, 10, 0)]: the sign is picked off, the rest goes
    to [ParseUint]; a syntax error gives 0, a magnitude out of range the
    nearest bound. *)
Definition ParseInt (s : string) : Z * option NumError :=
  match s with
  | EmptyString => (0, Some ErrSyntax)
  | String c rest =>
      let neg := Ascii.eqb c "-" in
      let digits := if Ascii.eqb c "+" || neg then rest else s in
      let (un, err) := ParseUint digits in
      match err with
      | Some ErrSyntax => (0, Some ErrSyntax)
      | _ =>
          let cutoff := 2 ^ 63 in
          if negb neg && (cutoff <=? un) then (cutoff - 1, Some ErrRange)
          else if neg && (cutoff <? un) then (- cutoff, Some ErrRange)
          else (if neg then - un else un, None)
      end
  end.

(** [strconv.Atoi] takes a shortcut for inputs of fewer than 19 bytes
    (sign, then digits, no range check needed) and calls [ParseInt]
    otherwise; the shortcut returns what [ParseInt] returns. *)
Definition Atoi (s : string) : Z := fst (ParseInt s).

(** Arithmetic on Go's [int] (64 bits, two's complement, silent wrap). *)
Definition wrap64 (z : Z) : Z := (z + 2 ^ 63) mod 2 ^ 64 - 2 ^ 63.
Definition int_sub (a b : Z) : Z := wrap64 (a - b).
Definition int_mul (a b : Z) : Z := wrap64 (a * b).

(* ===================================================================== *)
(** ** JSON values, the gin context, the JWT library *)
(* ===================================================================== *)

(** The values the handlers put into a [gin.H]. *)
Inductive JSON :=
| JStr (s : string)
| JNum (z : Z)
| JEvents (l : list Event.t)
| JAlerts (l : list Alert.t).

Record Response := mkResponse {
  Status : Z;
  Payload : gmap string JSON
}.

Definition StatusOK : Z := 200.
Definition StatusBadRequest : Z := 400.
Definition StatusUnauthorized : Z := 401.
Definition StatusInternalServerError : Z := 500.

(** The part of [*gin.Context] the server touches: the request (headers,
    query string, raw body), the key/value store filled by [c.Set], the
    response written by [c.JSON] and the flag raised by [c.Abort]. *)
Record Context := mkContext {
  Header : gmap string string;
  QueryParams : gmap string string;
  Body : string;
  Keys : gmap string string;
  Written : option Response;
  Aborted : bool
}.

Definition GetHeader (c : Context) (k : string) : string :=
  default "" (Header c !! k).
Definition Query (c : Context) (k : string) : string :=
  default "" (QueryParams c !! k).
Definition DefaultQuery (c : Context) (k d : string) : string :=
  default d (QueryParams c !! k).
Definition Get (c : Context) (k : string) : option string := Keys c !! k.

Definition Set_ (k v : string) (c : Context) : Context :=
  mkContext (Header c) (QueryParams c) (Body c) (<[k := v]> (Keys c))
            (Written c) (Aborted c).
Definition c_JSON (code : Z) (obj : gmap string JSON) (c : Context) : Context :=
  mkContext (Header c) (QueryParams c) (Body c) (Keys c)
            (Some (mkResponse code obj)) (Aborted c).
Definition Abort (c : Context) : Context :=
  mkContext (Header c) (QueryParams c) (Body c) (Keys c) (Written c) true.

(** Reading a response back. *)
Definition status_of (c : Context) : option Z := Status <$> Written c.
Definition error_text (c : Context) : option string :=
  match Written c with
  | Some r =>
      match Payload r !! "error" with
      | Some (JStr msg) => Some msg
      | _ => None
      end
  | None => None
  end.
Definition returned_events (c : Context) : list Event.t :=
  match Written c with
  | Some r =>
      match Payload r !! "events" with
      | Some (JEvents l) => l
      | _ => []
      end
  | None => []
  end.
Definition returned_alerts (c : Context) : list Alert.t :=
  match Written c with
  | Some r =>
      match Payload r !! "alerts" with
      | Some (JAlerts l) => l
      | _ => []
      end
  | None => []
  end.

(** The same request seen with another key/value store. *)
Definition with_keys (keys : gmap string string) (c : Context) : Context :=
  mkContext (Header c) (QueryParams c) (Body c) keys (Written c) (Aborted c).

(** A fresh request, before any middleware ran. *)
Definition request (hdr qry : gmap string string) (body : string) : Context :=
  mkContext hdr qry body ∅ None false.

Module Claims.
Record t := mk {
  UserID : string;
  TenantID : string;
  Role : string;
  ExpiresAt : option Z
}.
End Claims.

(** Why [jwt.ParseWithClaims] rejected a token. *)
Inductive JwtError :=
| ErrTokenMalformed
| ErrTokenSignatureInvalid
| ErrTokenExpired
| ErrTokenOther.

(** What [jwt.ParseWithClaims] hands back: the error if any, the [Valid]
    flag of the token and the claims it decoded. *)
Record ParseResult := mkParseResult {
  parse_err : option JwtError;
  token_Valid : bool;
  parsed_claims : Claims.t
}.

(* ===================================================================== *)
(** ** External collaborators and the state the handlers run in *)
(* ===================================================================== *)

(** The collaborators the server reaches through library calls. They are
    not part of the repository, so every property below is stated for an
    arbitrary [Env]:
    - [ShouldBindJSON]: gin's decoding of a request body into [[]Event];
      [None] is a binding error;
    - [ParseWithClaims token secret]: the JWT library;
    - [ParseRFC3339]: [time.Parse(time.RFC3339, _)];
    - [Now k]: what the k-th call of [time.Now()] returns;
    - [db_fails k]: whether the k-th SQL statement that reaches the
      database driver comes back with an error (the driver does not take
      one of the values, the connection is down, a constraint is broken);
    - [SkipDefaultTransaction]: the field of [gorm.Config] of that name
      ([false] unless the application sets it). *)
Record Env := mkEnv {
  ShouldBindJSON : string -> option (list Event.t);
  ParseWithClaims : string -> string -> ParseResult;
  ParseRFC3339 : string -> option Z;
  Now : nat -> Z;
  db_fails : nat -> bool;
  SkipDefaultTransaction : bool
}.

(** What the logging calls of the source leave behind:
    [logger.WithError(err).Error(msg)], [logger.WithField(k, v).Info(msg)]
    and, in main.go, [log.Printf(format, v)]. *)
Inductive LogEntry :=
| LogError (msg : string)
| LogInfo (msg : string) (field : string) (value : Z)
| LogPrintf (format : string) (arg : string).

(** The tables behind [h.db], with the counters of their auto-increment
    primary keys. *)
Record DB := mkDB {
  events : list Event.t;
  alerts : list Alert.t;
  event_seq : N;
  alert_seq : N
}.

Record World := mkWorld {
  db : DB;
  logs : list LogEntry;
  spawned : list (list Event.t);
  ticks : nat;
  stmts : nat
}.

(** The state monad of the handlers. *)
Definition M (A : Type) : Type := World -> A * World.

Definition ret {A} (a : A) : M A := fun w => (a, w).
Definition bind {A B} (m : M A) (k : A -> M B) : M B :=
  fun w => let (a, w') := m w in k a w'.

Declare Scope m_scope.
Delimit Scope m_scope with M.
Notation "x <- m ;; k" := (bind m (fun x => k))
  (at level 100, m at next level, right associativity) : m_scope.
Notation "m ;; k" := (bind m (fun _ => k))
  (at level 100, right associativity) : m_scope.
Local Open Scope m_scope.

Definition exec {A} (m : M A) (w : World) : World := snd (m w).
Definition eval {A} (m : M A) (w : World) : A := fst (m w).

(** [time.Now()]. *)
Definition timeNow (env : Env) : M Z :=
  fun w => (Now env (ticks w),
            mkWorld (db w) (logs w) (spawned w) (S (ticks w)) (stmts w)).

Definition log (entry : LogEntry) : M unit :=
  fun w => (tt, mkWorld (db w) (logs w ++ [entry]) (spawned w) (ticks w) (stmts w)).

(** [go f(batch)]: the call is recorded and runs later, off the request
    path. Only [processEventsForAlerts] is ever spawned. *)
Definition go (batch : list Event.t) : M unit :=
  fun w => (tt, mkWorld (db w) (logs w) (spawned w ++ [batch]) (ticks w) (stmts w)).

(** One SQL statement reaches the database driver; the answer says
    whether it failed. [stmts] numbers the statements that got this far: a
    GORM call that gives up before it has a statement to send (see
    [with_schema] below) does not come here. *)
Definition statement (env : Env) : M bool :=
  fun w => (db_fails env (stmts w),
            mkWorld (db w) (logs w) (spawned w) (ticks w) (S (stmts w))).

Definition get_db : M DB := fun w => (db w, w).
Definition put_db (d : DB) : M unit :=
  fun w => (tt, mkWorld d (logs w) (spawned w) (ticks w) (stmts w)).

(* ===================================================================== *)
(** ** The database calls of the handlers (GORM) *)
(* ===================================================================== *)

(** How GORM takes a struct field when it builds the schema of a model
    (the first step of every call that is given one):
    - [Plain]: a Go type it maps to a column by itself (integers, floats,
      strings, bool, [time.Time], and pointers to these);
    - [Typed]: a slice or a map whose tag names the column type
      ([gorm:"type:text[]"], [gorm:"type:jsonb"]);
    - [Untyped]: a slice or a map without a column type. GORM takes such a
      field for a relation, finds no model behind [string], and refuses
      the whole schema. *)
Inductive ColumnKind := Plain | Typed | Untyped.

Definition Schema : Type := list (string * ColumnKind).

(** [gorm:"embedded"]: the fields of the inner struct become fields of
    the outer one. *)
Definition embedded (field : string) (inner : Schema) : Schema :=
  map (fun f => (String.append field (String.append "." (fst f)), snd f)) inner.

Definition User_fields : Schema :=
  [("ID", Plain); ("Email", Plain); ("Dept", Plain); ("RiskScore", Plain);
   ("CreatedAt", Plain); ("UpdatedAt", Plain)].
Definition OS_fields : Schema :=
  [("Family", Plain); ("Version", Plain); ("Arch", Plain)].
Definition EventData_fields : Schema :=
  [("Type", Plain); ("ID", Plain); ("Category", Plain)].
(** [Cmd []string] carries a json tag only. *)
Definition ProcessInfo_fields : Schema :=
  [("Name", Plain); ("Cmd", Untyped); ("PPID", Plain); ("PID", Plain);
   ("Hash", Plain); ("User", Plain); ("CPUUsage", Plain); ("MemoryUsage", Plain)].
Definition NetworkInfo_fields : Schema :=
  [("SrcIP", Plain); ("DstIP", Plain); ("DstPort", Plain); ("Protocol", Plain);
   ("BytesIn", Plain); ("BytesOut", Plain); ("Domain", Plain)].
Definition FileInfo_fields : Schema :=
  [("Path", Plain); ("Operation", Plain); ("Size", Plain); ("Hash", Plain);
   ("User", Plain)].
Definition Agent_fields : Schema :=
  [("Version", Plain); ("Mode", Plain); ("Hostname", Plain)].

Definition Event_schema : Schema :=
  [("ID", Plain); ("Timestamp", Plain); ("TenantID", Plain); ("HostID", Plain)]
  ++ embedded "User" User_fields
  ++ embedded "OS" OS_fields
  ++ embedded "Event" EventData_fields
  ++ embedded "Process" ProcessInfo_fields
  ++ embedded "Network" NetworkInfo_fields
  ++ embedded "File" FileInfo_fields
  ++ [("Labels", Typed); ("RiskHints", Typed)]
  ++ embedded "Agent" Agent_fields
  ++ [("SessionID", Plain); ("CreatedAt", Plain); ("UpdatedAt", Plain)].

Definition Alert_schema : Schema :=
  [("ID", Plain); ("CreatedAt", Plain); ("Severity", Plain); ("Title", Plain);
   ("Description", Plain); ("TenantID", Plain); ("RuleID", Plain);
   ("RuleVersion", Plain); ("UEBAScore", Plain); ("Entities", Typed);
   ("Evidence", Typed); ("Status", Plain); ("Assignee", Plain);
   ("ResolvedAt", Plain)].

Definition Rule_schema : Schema :=
  [("ID", Plain); ("Name", Plain); ("Description", Plain); ("Version", Plain);
   ("Enabled", Plain); ("Severity", Plain); ("Conditions", Typed);
   ("Actions", Typed); ("CreatedAt", Plain); ("UpdatedAt", Plain)].

Definition schema_builds (model : Schema) : bool :=
  forallb (fun f => match snd f with Untyped => false | _ => true end) model.

(** A GORM call on a model: when the schema is refused the call returns
    the error at once and no statement is built. *)
Definition with_schema {A} (model : Schema) (call : M (option A)) : M (option A) :=
  if schema_builds model then call else ret None.

(** Reading a row back into the struct. The driver hands a jsonb or
    text[] column over as text, which database/sql cannot store into a Go
    map or slice: the scan fails unless the column is NULL, which leaves
    the field nil. In the tables below a nil map is the empty map and a
    nil slice the empty list. *)
Definition is_nil {A} (l : list A) : bool :=
  match l with
  | [] => true
  | _ :: _ => false
  end.

Definition Event_scans (e : Event.t) : bool :=
  is_nil (Event.Labels e) && is_nil (Event.RiskHints e).

Definition Alert_scans (a : Alert.t) : bool :=
  bool_decide (Alert.Entities a = ∅) && is_nil (Alert.Evidence a).

(** Primary keys of one INSERT: a row whose key is zero takes the next
    value of the sequence. The ingestion loop zeroes every key first. *)
Fixpoint assign_ids (seq : N) (rows : list Event.t) : list Event.t * N :=
  match rows with
  | [] => ([], seq)
  | r :: rest =>
      let id := (seq + 1)%N in
      let (rs, seq') := assign_ids id rest in
      (Event.set_ID id r :: rs, seq')
  end.

(** [Create] on a chunk of event rows: the schema of [Event], then one
    INSERT statement. *)
Definition insert_events (env : Env) (rows : list Event.t)
  : M (option (list Event.t)) :=
  with_schema Event_schema
    (failed <- statement env;;
     if failed : bool then ret None
     else
       d <- get_db;;
       let (rows', seq') := assign_ids (event_seq d) rows in
       put_db (mkDB (events d ++ rows') (alerts d) seq' (alert_seq d));;
       ret (Some rows')).

(** The loop of [CreateInBatches]:
    [for i := 0; i < len; i += batchSize { Create(rows[i:min(i+batchSize,len)]) }],
    leaving at the first error. [fuel] bounds the number of rounds. An
    empty slice makes no round, so no schema is built for it. *)
Fixpoint create_chunks (env : Env) (fuel batchSize : nat) (rows : list Event.t)
  : M (option (list Event.t)) :=
  match fuel with
  | O => ret (Some [])
  | S fuel' =>
      match rows with
      | [] => ret (Some [])
      | _ :: _ =>
          r <- insert_events env (take batchSize rows);;
          match r with
          | None => ret None
          | Some ins =>
              r' <- create_chunks env fuel' batchSize (drop batchSize rows);;
              ret (option_map (app ins) r')
          end
      end
  end.

(** [db.Transaction(fc)]: the tables are put back when [fc] fails. *)
Definition Transaction {A} (fc : M (option A)) : M (option A) :=
  snapshot <- get_db;;
  r <- fc;;
  match r with
  | None => put_db snapshot;; ret None
  | Some a => ret (Some a)
  end.

(** [h.db.CreateInBatch(&events, batchSize)]. The handler spells the
    method this way; GORM's method of this signature is [CreateInBatches],
    and that is what is modelled. GORM runs the loop inside a transaction
    unless [SkipDefaultTransaction] is set or the slice fits into one
    chunk. [None] is a non-nil [.Error]; on success the rows come back
    with their primary keys filled in. *)
Definition CreateInBatch (env : Env) (rows : list Event.t) (batchSize : nat)
  : M (option (list Event.t)) :=
  let callFc := create_chunks env (length rows) batchSize rows in
  if SkipDefaultTransaction env || (length rows <=? batchSize)%nat
  then callFc
  else Transaction callFc.

(** [h.db.Create(&alert)]: the schema of [Alert], then one INSERT. Whether
    the driver takes the map and the slice of the row is part of what
    [db_fails] answers. *)
Definition Create_alert (env : Env) (a : Alert.t) : M (option Alert.t) :=
  with_schema Alert_schema
    (failed <- statement env;;
     if failed : bool then ret None
     else
       d <- get_db;;
       let id := (alert_seq d + 1)%N in
       let a' := Alert.set_ID id a in
       put_db (mkDB (events d) (alerts d ++ [a']) (event_seq d) id);;
       ret (Some a')).

(** [query.Where(cond)]: one more conjunct. *)
Definition Where {A} (query cond : A -> bool) : A -> bool :=
  fun row => query row && cond row.

(** [Offset(n)] and [Limit(n)] as GORM renders them: OFFSET only when
    [n > 0], LIMIT only when [n >= 0]. *)
Definition Offset {A} (n : Z) (rows : list A) : list A :=
  if 0 <? n then drop (Z.to_nat n) rows else rows.
Definition Limit {A} (n : Z) (rows : list A) : list A :=
  if 0 <=? n then take (Z.to_nat n) rows else rows.

(** [Order("created_at DESC")]; rows with equal stamps keep table order. *)
Fixpoint insert_desc (a : Alert.t) (l : list Alert.t) : list Alert.t :=
  match l with
  | [] => [a]
  | b :: l' =>
      if Alert.CreatedAt b <=? Alert.CreatedAt a then a :: b :: l'
      else b :: insert_desc a l'
  end.
Definition Order_created_at_DESC (l : list Alert.t) : list Alert.t :=
  foldr insert_desc [] l.

(** [query.Offset(o).Limit(l)[.Order(..)].Find(&rows)] on the model
    [model]: the schema, then one SELECT, then the scan of every row the
    SELECT returned; [scans] says which rows can be read back. An error at
    any of the three steps is the [.Error] of the call. *)
Definition Find {A} (env : Env) (model : Schema) (scans : A -> bool)
    (table : DB -> list A) (query : A -> bool)
    (order : list A -> list A) (offset limit : Z) : M (option (list A)) :=
  with_schema model
    (failed <- statement env;;
     if failed : bool then ret None
     else
       d <- get_db;;
       let rows := Limit limit (Offset offset (order (List.filter query (table d)))) in
       if forallb scans rows then ret (Some rows) else ret None).

(* ===================================================================== *)
(** ** Detection (server/handlers.go) *)
(* ===================================================================== *)

Definition createAlert (env : Env) (event : Event.t) (title severity : string)
  : M unit :=
  now <- timeNow env;;
  let alert :=
    Alert.mk 0%N now severity title "" (Event.TenantID event)
      "RULE_AUTO" "1.0" 75
      {[ "user" := User.ID (Event.User event); "host" := Event.HostID event ]}
      [EventData.ID (Event.Event event)]
      "open" None None in
  r <- Create_alert env alert;;
  match r with
  | None => log (LogError "Failed to create alert")
  | Some alert' => log (LogInfo "Created alert" "alert_id" (Z.of_N (Alert.ID alert')))
  end.

Definition suspiciousCmds : list string :=
  ["netcat"; "ncat"; "wget"; "curl"; "scp"; "rclone"].

(** The inner loop over the vocabulary; it is left ([break]) at the first
    word the token contains. *)
Fixpoint scan_vocabulary (env : Env) (event : Event.t) (cmd : string)
    (vocabulary : list string) : M unit :=
  match vocabulary with
  | [] => ret tt
  | suspicious :: rest =>
      if Contains cmd suspicious
      then createAlert env event "Suspicious data transfer tool detected" "high"
      else scan_vocabulary env event cmd rest
  end.

(** The loop over the argv tokens of the process descriptor. *)
Fixpoint scan_cmd (env : Env) (event : Event.t) (cmds : list string) : M unit :=
  match cmds with
  | [] => ret tt
  | cmd :: rest =>
      scan_vocabulary env event cmd suspiciousCmds;;
      scan_cmd env event rest
  end.

(** The body of the loop over the batch. *)
Definition processEvent (env : Env) (event : Event.t) : M unit :=
  match Event.Process event with
  | Some proc => scan_cmd env event (ProcessInfo.Cmd proc)
  | None => ret tt
  end;;
  match Event.File event with
  | Some file =>
      match FileInfo.Size file with
      | Some size =>
          if (100 * 1024 * 1024 <? size)%N
          then createAlert env event "Large file operation detected" "medium"
          else ret tt
      | None => ret tt
      end
  | None => ret tt
  end.

Fixpoint processEventsForAlerts (env : Env) (events : list Event.t) : M unit :=
  match events with
  | [] => ret tt
  | event :: rest =>
      processEvent env event;;
      processEventsForAlerts env rest
  end.

(** The goroutines spawned so far get to run: the pending passes are
    taken one after the other, in spawn order (one of the schedules the
    Go runtime allows). *)
Fixpoint run_passes (env : Env) (pending : list (list Event.t)) : M unit :=
  match pending with
  | [] => ret tt
  | batch :: rest =>
      processEventsForAlerts env batch;;
      run_passes env rest
  end.

Definition run_spawned (env : Env) : M unit :=
  fun w =>
    run_passes env (spawned w)
      (mkWorld (db w) (logs w) [] (ticks w) (stmts w)).

(* ===================================================================== *)
(** ** Handlers (server/handlers.go) *)
(* ===================================================================== *)

(** The first loop of [IngestEvents]: key zeroed, both stamps taken from
    the clock (two readings per event). *)
Fixpoint stamp_events (env : Env) (batch : list Event.t) : M (list Event.t) :=
  match batch with
  | [] => ret []
  | e :: rest =>
      created <- timeNow env;;
      updated <- timeNow env;;
      let e' := Event.set_UpdatedAt updated
                  (Event.set_CreatedAt created (Event.set_ID 0%N e)) in
      rest' <- stamp_events env rest;;
      ret (e' :: rest')
  end.

(** [POST /v1/events]. *)
Definition IngestEvents (env : Env) (c : Context) : M Context :=
  match ShouldBindJSON env (Body c) with
  | None =>
      log (LogError "Failed to bind events JSON");;
      ret (c_JSON StatusBadRequest {[ "error" := JStr "Invalid JSON format" ]} c)
  | Some batch =>
      batch <- stamp_events env batch;;
      r <- CreateInBatch env batch 100;;
      match r with
      | None =>
          log (LogError "Failed to insert events");;
          ret (c_JSON StatusInternalServerError
                      {[ "error" := JStr "Failed to process events" ]} c)
      | Some batch =>
          log (LogInfo "Successfully ingested events" "count"
                       (Z.of_nat (length batch)));;
          go batch;;
          ret (c_JSON StatusOK
                      {[ "status" := JStr "ok";
                         "count" := JNum (Z.of_nat (length batch)) ]} c)
      end
  end.

Definition nonempty (s : string) : bool := negb (String.eqb s "").

(** [GET /v1/events], first half ("Apply filters"): the conditions the
    query string adds to the SELECT. *)
Definition events_filters (env : Env) (c : Context) : Event.t -> bool :=
  let query : Event.t -> bool := fun _ => true in
  let tenantID := Query c "tenant_id" in
  let query :=
    if nonempty tenantID
    then Where query (fun e => String.eqb (Event.TenantID e) tenantID)
    else query in
  let hostID := Query c "host_id" in
  let query :=
    if nonempty hostID
    then Where query (fun e => String.eqb (Event.HostID e) hostID)
    else query in
  let eventType := Query c "event_type" in
  let query :=
    if nonempty eventType
    then Where query (fun e => String.eqb (EventData.Type_ (Event.Event e)) eventType)
    else query in
  let startTime := Query c "start_time" in
  let query :=
    if nonempty startTime
    then match ParseRFC3339 env startTime with
         | Some t => Where query (fun e => t <=? Event.Timestamp e)
         | None => query
         end
    else query in
  let endTime := Query c "end_time" in
  let query :=
    if nonempty endTime
    then match ParseRFC3339 env endTime with
         | Some t => Where query (fun e => Event.Timestamp e <=? t)
         | None => query
         end
    else query in
  query.

(** [GET /v1/events]: the filters, the pagination, the SELECT, the answer. *)
Definition GetEvents (env : Env) (c : Context) : M Context :=
  let query := events_filters env c in
  let page := Atoi (DefaultQuery c "page" "1") in
  let limit := Atoi (DefaultQuery c "limit" "50") in
  let offset := int_mul (int_sub page 1) limit in
  r <- Find env Event_schema Event_scans events query (fun rows => rows)
         offset limit;;
  match r with
  | None =>
      log (LogError "Failed to query events");;
      ret (c_JSON StatusInternalServerError
                  {[ "error" := JStr "Failed to query events" ]} c)
  | Some found =>
      ret (c_JSON StatusOK
                  {[ "events" := JEvents found;
                     "page" := JNum page;
                     "limit" := JNum limit ]} c)
  end.

(** [GET /v1/alerts], first half ("Apply filters"). *)
Definition alerts_filters (c : Context) : Alert.t -> bool :=
  let query : Alert.t -> bool := fun _ => true in
  let tenantID := Query c "tenant_id" in
  let query :=
    if nonempty tenantID
    then Where query (fun a => String.eqb (Alert.TenantID a) tenantID)
    else query in
  let status := Query c "status" in
  let query :=
    if nonempty status
    then Where query (fun a => String.eqb (Alert.Status a) status)
    else query in
  let severity := Query c "severity" in
  let query :=
    if nonempty severity
    then Where query (fun a => String.eqb (Alert.Severity a) severity)
    else query in
  query.

(** [GET /v1/alerts]: the filters, the pagination, the ordered SELECT,
    the answer. *)
Definition GetAlerts (env : Env) (c : Context) : M Context :=
  let query := alerts_filters c in
  let page := Atoi (DefaultQuery c "page" "1") in
  let limit := Atoi (DefaultQuery c "limit" "50") in
  let offset := int_mul (int_sub page 1) limit in
  r <- Find env Alert_schema Alert_scans alerts query Order_created_at_DESC
         offset limit;;
  match r with
  | None =>
      log (LogError "Failed to query alerts");;
      ret (c_JSON StatusInternalServerError
                  {[ "error" := JStr "Failed to query alerts" ]} c)
  | Some found =>
      ret (c_JSON StatusOK
                  {[ "alerts" := JAlerts found;
                     "page" := JNum page;
                     "limit" := JNum limit ]} c)
  end.

(* ===================================================================== *)
(** ** Middleware (server/middleware.go) *)
(* ===================================================================== *)

(** A [gin.HandlerFunc]. *)
Definition HandlerFunc : Type := Context -> M Context.

(** The handler chain of a route: each handler runs unless an earlier one
    called [c.Abort()]. The middleware below end with [c.Next()], so
    running the rest of the chain after them is what [c.Next()] does. *)
Fixpoint run_chain (chain : list HandlerFunc) (c : Context) : M Context :=
  match chain with
  | [] => ret c
  | h :: rest =>
      c' <- h c;;
      if Aborted c' then ret c' else run_chain rest c'
  end.

Definition AuthMiddleware (env : Env) (jwtSecret : string) : HandlerFunc :=
  fun c =>
    let authHeader := GetHeader c "Authorization" in
    if String.eqb authHeader "" then
      ret (Abort (c_JSON StatusUnauthorized
                         {[ "error" := JStr "Authorization header required" ]} c))
    else
      let tokenString := TrimPrefix authHeader "Bearer " in
      if String.eqb tokenString authHeader then
        ret (Abort (c_JSON StatusUnauthorized
                           {[ "error" := JStr "Bearer token required" ]} c))
      else
        let parsed := ParseWithClaims env tokenString jwtSecret in
        if bool_decide (is_Some (parse_err parsed)) || negb (token_Valid parsed) then
          ret (Abort (c_JSON StatusUnauthorized
                             {[ "error" := JStr "Invalid token" ]} c))
        else
          let claims := parsed_claims parsed in
          ret (Set_ "role" (Claims.Role claims)
                 (Set_ "tenant_id" (Claims.TenantID claims)
                    (Set_ "user_id" (Claims.UserID claims) c))).

Definition TenantMiddleware : HandlerFunc :=
  fun c =>
    match Get c "tenant_id" with
    | None =>
        ret (Abort (c_JSON StatusBadRequest
                           {[ "error" := JStr "Tenant ID required" ]} c))
    | Some tenantID => ret (Set_ "tenant_context" tenantID c)
    end.

(** Modelled from the spec: the registration of the [EventHandler] routes
    is not in the sources (main.go registers the placeholders below). The
    interface table of the specification puts both query routes behind the
    bearer gate; the chain here is the auth gate, the tenant middleware of
    middleware.go, then the handler. *)
Definition route_GET_events (env : Env) (jwtSecret : string) : list HandlerFunc :=
  [AuthMiddleware env jwtSecret; TenantMiddleware; GetEvents env].
Definition route_GET_alerts (env : Env) (jwtSecret : string) : list HandlerFunc :=
  [AuthMiddleware env jwtSecret; TenantMiddleware; GetAlerts env].

(* ===================================================================== *)
(** ** The placeholder routes (server/main.go) *)
(* ===================================================================== *)

(** main.go declares an event type of its own and registers handlers that
    store nothing. The handler only counts and prints the events, so it
    is written for any event type [E], with gin's decoder for that type
    ([inr] carries [err.Error()]) and the [%+v] formatter as arguments. *)
Fixpoint print_events {E} (show : E -> string) (batch : list E) : M unit :=
  match batch with
  | [] => ret tt
  | event :: rest =>
      log (LogPrintf "Received event: %+v" (show event));;
      print_events show rest
  end.

Definition main_POST_events {E} (bind_json : string -> list E + string)
    (show : E -> string) (c : Context) : M Context :=
  match bind_json (Body c) with
  | inr err => ret (c_JSON StatusBadRequest {[ "error" := JStr err ]} c)
  | inl batch =>
      print_events show batch;;
      ret (c_JSON StatusOK
                  {[ "status" := JStr "ok";
                     "count" := JNum (Z.of_nat (length batch)) ]} c)
  end.

Definition main_GET_events (c : Context) : M Context :=
  ret (c_JSON StatusOK {[ "events" := JEvents [] ]} c).

Definition main_GET_alerts (c : Context) : M Context :=
  ret (c_JSON StatusOK {[ "alerts" := JAlerts [] ]} c).

Definition main_GET_health (c : Context) : M Context :=
  ret (c_JSON 200 {[ "status" := JStr "healthy"; "version" := JStr "1.0.0" ]} c).

(* ===================================================================== *)
(** ** Reference semantics of a detection pass *)
(* ===================================================================== *)

(** The rules in the words of the specification: which alerts (title and
    severity) an event calls for, in evaluation order. *)
Definition suspicious_token (cmd : string) : bool :=
  existsb (Contains cmd) suspiciousCmds.

Definition large_file (e : Event.t) : bool :=
  match Event.File e with
  | Some file =>
      match FileInfo.Size file with
      | Some size => (100 * 1024 * 1024 <? size)%N
      | None => false
      end
  | None => false
  end.

Definition suspicious_title : string := "Suspicious data transfer tool detected".
Definition large_file_title : string := "Large file operation detected".

Definition rule_matches (e : Event.t) : list (string * string) :=
  match Event.Process e with
  | Some proc =>
      map (fun _ => (suspicious_title, "high"))
          (List.filter suspicious_token (ProcessInfo.Cmd proc))
  | None => []
  end ++
  (if large_file e then [(large_file_title, "medium")] else []).

(** The calls of [createAlert] a batch calls for. *)
Definition detections (batch : list Event.t) : list (Event.t * (string * string)) :=
  flat_map (fun e => map (pair e) (rule_matches e)) batch.

Fixpoint emit (env : Env) (calls : list (Event.t * (string * string))) : M unit :=
  match calls with
  | [] => ret tt
  | (e, (title, severity)) :: rest =>
      createAlert env e title severity;;
      emit env rest
  end.

(** The alert [createAlert] builds, once the database has keyed it. *)
Definition alert_of (id : N) (now : Z) (e : Event.t) (title severity : string)
  : Alert.t :=
  Alert.mk id now severity title "" (Event.TenantID e) "RULE_AUTO" "1.0" 75
    {[ "user" := User.ID (Event.User e); "host" := Event.HostID e ]}
    [EventData.ID (Event.Event e)] "open" None None.

(** The alerts that reach the table, and the log lines written, when
    [calls] are issued from clock reading [tick], statement number [stmt]
    and alert sequence [seq]. *)
Fixpoint persisted (env : Env) (tick stmt : nat) (seq : N)
    (calls : list (Event.t * (string * string))) : list Alert.t :=
  match calls with
  | [] => []
  | (e, (title, severity)) :: rest =>
      if db_fails env stmt
      then persisted env (S tick) (S stmt) seq rest
      else alert_of (seq + 1) (Now env tick) e title severity
             :: persisted env (S tick) (S stmt) (seq + 1) rest
  end.

Fixpoint outcome_logs (env : Env) (stmt : nat) (seq : N)
    (calls : list (Event.t * (string * string))) : list LogEntry :=
  match calls with
  | [] => []
  | _ :: rest =>
      if db_fails env stmt
      then LogError "Failed to create alert" :: outcome_logs env (S stmt) seq rest
      else LogInfo "Created alert" "alert_id" (Z.of_N (seq + 1))
             :: outcome_logs env (S stmt) (seq + 1) rest
  end.

Definition is_failure (entry : LogEntry) : bool :=
  match entry with
  | LogError _ => true
  | LogInfo _ _ _ => false
  | LogPrintf _ _ => false
  end.

(** What a pass appends to the alert table and to the log. *)
Definition new_alerts (env : Env) (batch : list Event.t) (w : World) : list Alert.t :=
  drop (length (alerts (db w)))
       (alerts (db (exec (processEventsForAlerts env batch) w))).
Definition new_logs (env : Env) (batch : list Event.t) (w : World) : list LogEntry :=
  drop (length (logs w)) (logs (exec (processEventsForAlerts env batch) w)).

Definition titled (title : string) (a : Alert.t) : bool :=
  String.eqb (Alert.Title a) title.

(** The storage answers every statement without error. *)
Definition healthy (env : Env) : Prop := forall k, db_fails env k = false.

(** The fields [createAlert] copies from the triggering event. *)
Definition made_from (e : Event.t) (a : Alert.t) : Prop :=
  Alert.TenantID a = Event.TenantID e /\
  Alert.Entities a =
    {[ "user" := User.ID (Event.User e); "host" := Event.HostID e ]} /\
  Alert.Evidence a = [EventData.ID (Event.Event e)] /\
  Alert.Status a = "open".

Definition rule_identity (a : Alert.t) : Prop :=
  Alert.RuleID a = "RULE_AUTO" /\ Alert.RuleVersion a = "1.0" /\
  Alert.UEBAScore a = 75.

(* ===================================================================== *)
(** ** Reference semantics of ingestion *)
(* ===================================================================== *)

(** The batch after the stamping loop started at clock reading [tick]. *)
Fixpoint stamped (env : Env) (tick : nat) (batch : list Event.t) : list Event.t :=
  match batch with
  | [] => []
  | e :: rest =>
      Event.set_UpdatedAt (Now env (S tick))
        (Event.set_CreatedAt (Now env tick) (Event.set_ID 0%N e))
      :: stamped env (S (S tick)) rest
  end.


Definition ok_receipt (n : nat) : Response :=
  mkResponse StatusOK
    {[ "status" := JStr "ok"; "count" := JNum (Z.of_nat n) ]}.

Definition error_response (code : Z) (msg : string) : Response :=
  mkResponse code {[ "error" := JStr msg ]}.

(* ===================================================================== *)
(** ** The failures of the auth gate, in the words of the specification *)
(* ===================================================================== *)

Inductive AuthFailure :=
| HeaderAbsent
| HeaderMalformed
| SignatureInvalid
| TokenExpired.

(** When a request fails in which way: no Authorization header (or an
    empty one), a header that does not start with "Bearer ", a token the
    JWT library rejects for its signature, a token it rejects as expired. *)
Definition auth_failure (env : Env) (jwtSecret : string) (c : Context)
    (f : AuthFailure) : Prop :=
  let authHeader := GetHeader c "Authorization" in
  match f with
  | HeaderAbsent => authHeader = ""
  | HeaderMalformed => authHeader <> "" /\ HasPrefix authHeader "Bearer " = false
  | SignatureInvalid =>
      HasPrefix authHeader "Bearer " = true /\
      parse_err (ParseWithClaims env (TrimPrefix authHeader "Bearer ") jwtSecret)
        = Some ErrTokenSignatureInvalid
  | TokenExpired =>
      HasPrefix authHeader "Bearer " = true /\
      parse_err (ParseWithClaims env (TrimPrefix authHeader "Bearer ") jwtSecret)
        = Some ErrTokenExpired
  end.

(** The message the gate sends with each failure. *)
Definition auth_message (f : AuthFailure) : string :=
  match f with
  | HeaderAbsent => "Authorization header required"
  | HeaderMalformed => "Bearer token required"
  | SignatureInvalid => "Invalid token"
  | TokenExpired => "Invalid token"
  end.

(* ===================================================================== *)
(** ** Sample environments, stores and events *)
(* ===================================================================== *)

Definition no_claims : Claims.t := Claims.mk "" "" "" None.

(** A decoder that rejects every body, a JWT library that rejects every
    token, a clock that counts, a store that never fails. *)
Definition env_ok : Env :=
  mkEnv (fun _ => None)
        (fun _ _ => mkParseResult (Some ErrTokenMalformed) false no_claims)
        (fun _ => None)
        (fun k => Z.of_nat k)
        (fun _ => false)
        false.

(** The same with a decoder that answers [decoded] for every body and a
    store that fails the statements [fails] selects. *)
Definition env_with (decoded : option (list Event.t)) (fails : nat -> bool) : Env :=
  mkEnv (fun _ => decoded)
        (fun _ _ => mkParseResult (Some ErrTokenMalformed) false no_claims)
        (fun _ => None)
        (fun k => Z.of_nat k)
        fails
        false.

Definition empty_db : DB := mkDB [] [] 0 0.
Definition world0 : World := mkWorld empty_db [] [] 0 0.

Definition sample_event (tenant host user id : string)
    (proc : option (list string)) (file : option (option N)) : Event.t :=
  Event.mk 0 0 tenant host
    (User.mk user "" "" None 0 0) (OS.mk "linux" "" "")
    (EventData.mk "process" id "")
    (option_map (fun cmd => ProcessInfo.mk "proc" cmd 0 0 None None 0) proc)
    None
    (option_map (fun size => FileInfo.mk "/data/blob" "write" size None None) file)
    [] [] (Agent.mk "1.0" "monitor" "") "" 0 0.

Definition event_curl : Event.t :=
  sample_event "t1" "h1" "u1" "e-curl" (Some ["curl"; "https://x"]) None.
Definition event_curl_wget : Event.t :=
  sample_event "t1" "h1" "u1" "e-two" (Some ["curl"; "wget"]) None.
Definition event_file_150 : Event.t :=
  sample_event "t1" "h1" "u1" "e-150" None (Some (Some (150 * 1024 * 1024)%N)).
Definition event_file_50 : Event.t :=
  sample_event "t1" "h1" "u1" "e-50" None (Some (Some (50 * 1024 * 1024)%N)).
Definition event_file_100 : Event.t :=
  sample_event "t1" "h1" "u1" "e-100" None (Some (Some (100 * 1024 * 1024)%N)).
Definition event_file_no_size : Event.t :=
  sample_event "t1" "h1" "u1" "e-nosize" None (Some None).
Definition event_wget : Event.t :=
  sample_event "t1" "h1" "u1" "e-wget" (Some ["wget"; "http://evil"]) None.

(** A JWT library that knows four tokens: one per tenant, one expired,
    one with a forged signature. *)
Definition sample_jwt (tokenString secret : string) : ParseResult :=
  if String.eqb tokenString "tok-t1"
  then mkParseResult None true (Claims.mk "u1" "t1" "analyst" (Some 4102444800))
  else if String.eqb tokenString "tok-t2"
  then mkParseResult None true (Claims.mk "u2" "t2" "analyst" (Some 4102444800))
  else if String.eqb tokenString "tok-expired"
  then mkParseResult (Some ErrTokenExpired) false
         (Claims.mk "u1" "t1" "analyst" (Some 0))
  else if String.eqb tokenString "tok-forged"
  then mkParseResult (Some ErrTokenSignatureInvalid) false no_claims
  else mkParseResult (Some ErrTokenMalformed) false no_claims.

Definition env_auth : Env :=
  mkEnv (fun _ => None) sample_jwt (fun _ => None) (fun k => Z.of_nat k)
        (fun _ => false) false.

Definition bearer (tokenString : string) : gmap string string :=
  {[ "Authorization" := String.append "Bearer " tokenString ]}.

(** A store holding one event and one alert of tenant t1 and one event
    and one alert of tenant t2. The entities and evidence columns of the
    two alert rows are NULL, so the rows can be read back. *)
Definition event_t1 : Event.t :=
  Event.set_ID 1 (sample_event "t1" "h1" "u1" "e-1" (Some ["curl"; "https://x"]) None).
Definition event_t2 : Event.t :=
  Event.set_ID 2 (sample_event "t2" "h2" "u2" "e-2" (Some ["wget"; "http://y"]) None).
Definition stored_alert (id : N) (created : Z) (tenant : string) : Alert.t :=
  Alert.mk id created "high" suspicious_title "" tenant "RULE_AUTO" "1.0" 75
    ∅ [] "open" None None.
Definition alert_t1 : Alert.t := stored_alert 1 10 "t1".
Definition alert_t2 : Alert.t := stored_alert 2 20 "t2".

(** Two events that carry the same client-chosen event id under
    different tenants; only the first runs a tool of the vocabulary. *)
Definition event_shared_t1 : Event.t :=
  sample_event "t1" "h1" "u1" "e-shared" (Some ["curl"; "https://x"]) None.
Definition event_shared_t2 : Event.t :=
  sample_event "t2" "h2" "u2" "e-shared" (Some ["ls"]) None.

Definition two_tenants : World :=
  mkWorld (mkDB [event_t1; event_t2] [alert_t1; alert_t2] 2 2) [] [] 0 0.

(* ===================================================================== *)
(** ** Vocabulary for the properties of the pipeline *)
(* ===================================================================== *)

(** An alert without what the server assigns at insertion (key, stamp). *)
Definition alert_content (a : Alert.t) : Alert.t :=
  Alert.mk 0%N 0 (Alert.Severity a) (Alert.Title a) (Alert.Description a)
    (Alert.TenantID a) (Alert.RuleID a) (Alert.RuleVersion a)
    (Alert.UEBAScore a) (Alert.Entities a) (Alert.Evidence a)
    (Alert.Status a) (Alert.Assignee a) (Alert.ResolvedAt a).

(** Primary keys of a table are in order: every key was handed out by
    the sequence and no two rows share one. *)
Definition alert_keys_fresh (d : DB) : Prop :=
  Forall (fun a => (Alert.ID a <= alert_seq d)%N) (alerts d) /\
  NoDup (map Alert.ID (alerts d)).


(** [word] occurs in [s]. *)
Definition occurs_in (word s : string) : Prop :=
  exists pre post, s = String.append pre (String.append word post).


(** The rows the SELECT of [GET /v1/alerts] asks for: the filters of the
    query string, newest first, the page the request names. *)
Definition alerts_page (c : Context) (d : DB) : list Alert.t :=
  Limit (Atoi (DefaultQuery c "limit" "50"))
    (Offset (int_mul (int_sub (Atoi (DefaultQuery c "page" "1")) 1)
               (Atoi (DefaultQuery c "limit" "50")))
       (Order_created_at_DESC (List.filter (alerts_filters c) (alerts d)))).

(** Alerts listed from the most recent stamp to the oldest. *)
Definition newest_first (l : list Alert.t) : Prop :=
  StronglySorted (fun a b => Alert.CreatedAt b <= Alert.CreatedAt a) l.

(** The auth gate's three conditions for letting a request through: the
    Authorization header starts with "Bearer ", the JWT library reports
    no error for the rest of the header, and it marks the token valid. *)
Definition presented_token (c : Context) : string :=
  TrimPrefix (GetHeader c "Authorization") "Bearer ".

Definition token_accepted (env : Env) (jwtSecret : string) (c : Context) : Prop :=
  HasPrefix (GetHeader c "Authorization") "Bearer " = true /\
  parse_err (ParseWithClaims env (presented_token c) jwtSecret) = None /\
  token_Valid (ParseWithClaims env (presented_token c) jwtSecret) = true.

(* ===================================================================== *)
(** ** Rules, the alert action and the remaining middleware *)
(* ===================================================================== *)

(** [Conditions map[string]interface{}] is free-form JSON the handlers
    never look into; the type of a decoded map is the parameter [C], and
    [None] is the nil map. *)
Module Rule.
Record t (C : Type) := mk {
  ID : string;
  Name : string;
  Description : string;
  Version : string;
  Enabled : bool;
  Severity : string;
  Conditions : option C;
  Actions : list string;
  CreatedAt : Z;
  UpdatedAt : Z
}.
Arguments mk {C}.
Arguments ID {C}.
Arguments Name {C}.
Arguments Description {C}.
Arguments Version {C}.
Arguments Enabled {C}.
Arguments Severity {C}.
Arguments Conditions {C}.
Arguments Actions {C}.
Arguments CreatedAt {C}.
Arguments UpdatedAt {C}.

Definition set_ID {C} (v : string) (r : t C) : t C :=
  mk v (Name r) (Description r) (Version r) (Enabled r) (Severity r)
     (Conditions r) (Actions r) (CreatedAt r) (UpdatedAt r).
Definition set_CreatedAt {C} (v : Z) (r : t C) : t C :=
  mk (ID r) (Name r) (Description r) (Version r) (Enabled r) (Severity r)
     (Conditions r) (Actions r) v (UpdatedAt r).
Definition set_UpdatedAt {C} (v : Z) (r : t C) : t C :=
  mk (ID r) (Name r) (Description r) (Version r) (Enabled r) (Severity r)
     (Conditions r) (Actions r) (CreatedAt r) v.
Definition set_Enabled {C} (v : bool) (r : t C) : t C :=
  mk (ID r) (Name r) (Description r) (Version r) v (Severity r)
     (Conditions r) (Actions r) (CreatedAt r) (UpdatedAt r).
End Rule.

(** A logger line with its fields ([logrus.Fields]). The value passed to
    [WithError] is not kept. *)
Inductive Level := ErrorLevel | InfoLevel.

Record Entry := mkEntry {
  level : Level;
  message : string;
  fields : gmap string JSON
}.

(** What these handlers answer: a [gin.H] of plain values, the rule list
    of [gin.H{"rules": rules}], or a rule as the whole body. *)
Inductive Reply (C : Type) :=
| ReplyH (code : Z) (obj : gmap string JSON)
| ReplyRules (code : Z) (found : list (Rule.t C))
| ReplyRule (code : Z) (rule : Rule.t C).
Arguments ReplyH {C}.
Arguments ReplyRules {C}.
Arguments ReplyRule {C}.

Definition StatusCreated : Z := 201.
Definition StatusNoContent : Z := 204.
Definition StatusNotFound : Z := 404.

Definition reply_code {C} (r : Reply C) : Z :=
  match r with
  | ReplyH code _ => code
  | ReplyRules code _ => code
  | ReplyRule code _ => code
  end.

(** The server state these handlers work on: the [World] of the handlers
    above, the rules table, the logger lines with fields, and the number
    of [uuid.New()] calls so far. *)
Record Server (C : Type) := mkServer {
  world : World;
  rules : list (Rule.t C);
  journal : list Entry;
  uuids : nat
}.
Arguments mkServer {C}.
Arguments world {C}.
Arguments rules {C}.
Arguments journal {C}.
Arguments uuids {C}.

(** More collaborators: the k-th value of [uuid.New().String()], the JSON
    decoders for a rule and for an action request (action and optional
    params), and the row [db.First(&alert, id)] selects for a given inline
    condition. *)
Record Ext (C : Type) := mkExt {
  New_uuid : nat -> string;
  decode_rule : string -> option (Rule.t C);
  decode_action : string -> option (string * option C);
  First_alert : string -> list Alert.t -> option Alert.t
}.
Arguments mkExt {C}.
Arguments New_uuid {C}.
Arguments decode_rule {C}.
Arguments decode_action {C}.
Arguments First_alert {C}.

(** A computation of the handlers above, run on the [world] part. *)
Definition lift_M {C A} (m : M A) (s : Server C) : A * Server C :=
  let (a, w') := m (world s) in
  (a, mkServer w' (rules s) (journal s) (uuids s)).

Definition write_entry {C} (entry : Entry) (s : Server C) : Server C :=
  mkServer (world s) (rules s) (journal s ++ [entry]) (uuids s).

Definition uuid_New {C} (ext : Ext C) (s : Server C) : string * Server C :=
  (New_uuid ext (uuids s),
   mkServer (world s) (rules s) (journal s) (S (uuids s))).

(** Reading a rule back: as for alerts, the jsonb and the text[] column
    scan only when they are NULL. *)
Definition Rule_scans {C} (r : Rule.t C) : bool :=
  match Rule.Conditions r with
  | None => is_nil (Rule.Actions r)
  | Some _ => false
  end.

(** [h.db.Find(&rules)]: the schema of [Rule], one SELECT of the whole
    table, the scan of every row. *)
Definition Find_rules {C} (env : Env) (s : Server C)
  : option (list (Rule.t C)) * Server C :=
  if schema_builds Rule_schema then
    let (failed, s1) := lift_M (statement env) s in
    if failed : bool then (None, s1)
    else if forallb Rule_scans (rules s1) then (Some (rules s1), s1)
    else (None, s1)
  else (None, s).

(** [h.db.Create(&rule)]: the schema of [Rule], then one INSERT. The
    insert fails when the statement fails or the primary key is taken. A
    zero [Enabled] takes the column default of its tag
    ([gorm:"default:true"]), in the row and in the struct. *)
Definition Create_rule {C} (env : Env) (rule : Rule.t C) (s : Server C)
  : option (Rule.t C) * Server C :=
  if schema_builds Rule_schema then
    let (failed, s1) := lift_M (statement env) s in
    if (failed : bool) || existsb (String.eqb (Rule.ID rule)) (map Rule.ID (rules s1))
    then (None, s1)
    else
      let rule' := if Rule.Enabled rule then rule else Rule.set_Enabled true rule in
      (Some rule',
       mkServer (world s1) (rules s1 ++ [rule']) (journal s1) (uuids s1))
  else (None, s).

(** [GET /v1/rules]. *)
Definition GetRules {C} (env : Env) (s : Server C) : Reply C * Server C :=
  let (r, s1) := Find_rules env s in
  match r with
  | None =>
      (ReplyH StatusInternalServerError {[ "error" := JStr "Failed to query rules" ]},
       write_entry (mkEntry ErrorLevel "Failed to query rules" ∅) s1)
  | Some found => (ReplyRules StatusOK found, s1)
  end.

(** [POST /v1/rules]. *)
Definition CreateRule {C} (env : Env) (ext : Ext C) (c : Context) (s : Server C)
  : Reply C * Server C :=
  match decode_rule ext (Body c) with
  | None => (ReplyH StatusBadRequest {[ "error" := JStr "Invalid rule format" ]}, s)
  | Some rule =>
      let (id, s1) := uuid_New ext s in
      let rule := Rule.set_ID id rule in
      let (created, s2) := lift_M (timeNow env) s1 in
      let rule := Rule.set_CreatedAt created rule in
      let (updated, s3) := lift_M (timeNow env) s2 in
      let rule := Rule.set_UpdatedAt updated rule in
      let (r, s4) := Create_rule env rule s3 in
      match r with
      | None =>
          (ReplyH StatusInternalServerError
                  {[ "error" := JStr "Failed to create rule" ]},
           write_entry (mkEntry ErrorLevel "Failed to create rule" ∅) s4)
      | Some rule =>
          (ReplyRule StatusCreated rule,
           write_entry (mkEntry InfoLevel "Created new rule"
                          {[ "rule_id" := JStr (Rule.ID rule) ]}) s4)
      end
  end.

(** The rest of a request/response pair, next to the [Context] above:
    method, path and peer address of the request, the route parameters,
    the response headers set with [c.Header], and a status written
    without a body ([c.AbortWithStatus]). *)
Record Exchange := mkExchange {
  Ctx : Context;
  Method : string;
  Path : string;
  ClientIP : string;
  Params : gmap string string;
  ResponseHeader : gmap string string;
  StatusOnly : option Z
}.

Definition with_Ctx (c : Context) (x : Exchange) : Exchange :=
  mkExchange c (Method x) (Path x) (ClientIP x) (Params x)
             (ResponseHeader x) (StatusOnly x).
Definition Param (x : Exchange) (k : string) : string :=
  default "" (Params x !! k).
Definition c_Header (k v : string) (x : Exchange) : Exchange :=
  mkExchange (Ctx x) (Method x) (Path x) (ClientIP x) (Params x)
             (<[k := v]> (ResponseHeader x)) (StatusOnly x).
Definition AbortWithStatus (code : Z) (x : Exchange) : Exchange :=
  mkExchange (Abort (Ctx x)) (Method x) (Path x) (ClientIP x) (Params x)
             (ResponseHeader x) (Some code).

(** [c.Writer.Status()]: the status of the response written so far, 200
    when nothing was written. *)
Definition Writer_Status (x : Exchange) : Z :=
  match Written (Ctx x) with
  | Some r => Status r
  | None => default StatusOK (StatusOnly x)
  end.

(** A handler on the larger state; [ExHandler] is also the type of
    "the rest of the chain" that [c.Next()] runs. *)
Definition ExHandler (C : Type) : Type :=
  Exchange -> Server C -> Exchange * Server C.

(** A handler of the sections above, seen as an [ExHandler]. *)
Definition lift_handler {C} (h : HandlerFunc) : ExHandler C :=
  fun x s =>
    let (c', w') := h (Ctx x) (world s) in
    (with_Ctx c' x, mkServer w' (rules s) (journal s) (uuids s)).

(** [ShouldBindJSON] into the action request: decoding, then the
    [binding:"required"] check of the [Action] field. *)
Definition bind_action {C} (ext : Ext C) (body : string) : option (string * option C) :=
  match decode_action ext body with
  | Some (action, params) =>
      if String.eqb action "" then None else Some (action, params)
  | None => None
  end.

(** [h.db.First(&alert, alertID)]: the schema of [Alert], one SELECT,
    the scan of the row it returned. *)
Definition First {C} (env : Env) (ext : Ext C) (alertID : string) (s : Server C)
  : option Alert.t * Server C :=
  if schema_builds Alert_schema then
    let (failed, s1) := lift_M (statement env) s in
    if failed : bool then (None, s1)
    else
      match First_alert ext alertID (alerts (db (world s1))) with
      | Some alert => if Alert_scans alert then (Some alert, s1) else (None, s1)
      | None => (None, s1)
      end
  else (None, s).

(** [POST /v1/alerts/:id/actions]. *)
Definition ExecuteAlertAction {C} (env : Env) (ext : Ext C) : ExHandler C :=
  fun x s =>
    let alertID := Param x "id" in
    match bind_action ext (Body (Ctx x)) with
    | None =>
        (with_Ctx (c_JSON StatusBadRequest {[ "error" := JStr "Invalid request" ]}
                          (Ctx x)) x, s)
    | Some (action, _) =>
        let (found, s1) := First env ext alertID s in
        match found with
        | None =>
            (with_Ctx (c_JSON StatusNotFound {[ "error" := JStr "Alert not found" ]}
                              (Ctx x)) x, s1)
        | Some alert =>
            let s2 :=
              write_entry
                (mkEntry InfoLevel "Executing alert action"
                   {[ "alert_id" := JNum (Z.of_N (Alert.ID alert));
                      "action" := JStr action ]}) s1 in
            (with_Ctx (c_JSON StatusOK
                         {[ "status" := JStr "action_executed";
                            "alert_id" := JNum (Z.of_N (Alert.ID alert));
                            "action" := JStr action ]} (Ctx x)) x, s2)
        end
    end.

(** [CORSMiddleware] (the same code is inlined in main.go). [next] is
    the rest of the chain. *)
Definition CORSMiddleware {C} (next : ExHandler C) : ExHandler C :=
  fun x s =>
    let x := c_Header "Access-Control-Allow-Origin" "*" x in
    let x := c_Header "Access-Control-Allow-Methods"
                      "GET, POST, PUT, DELETE, OPTIONS" x in
    let x := c_Header "Access-Control-Allow-Headers"
                      "Origin, Content-Type, Authorization" x in
    if String.eqb (Method x) "OPTIONS"
    then (AbortWithStatus StatusNoContent x, s)
    else next x s.

(** [LoggingMiddleware]: a line before and a line after the rest of the
    chain. [time.Since(start)] is one more clock reading. *)
Definition LoggingMiddleware {C} (env : Env) (ext : Ext C) (next : ExHandler C)
  : ExHandler C :=
  fun x s =>
    let (start, s1) := lift_M (timeNow env) s in
    let (requestID, s2) := uuid_New ext s1 in
    let x1 := with_Ctx (Set_ "request_id" requestID (Ctx x)) x in
    let s3 :=
      write_entry
        (mkEntry InfoLevel "Request started"
           {[ "request_id" := JStr requestID;
              "method" := JStr (Method x1);
              "path" := JStr (Path x1);
              "ip" := JStr (ClientIP x1) ]}) s2 in
    let (x2, s4) := next x1 s3 in
    let (finish, s5) := lift_M (timeNow env) s4 in
    let latency := finish - start in
    let status := Writer_Status x2 in
    (x2,
     write_entry
       (mkEntry InfoLevel "Request completed"
          {[ "request_id" := JStr requestID;
             "status" := JNum status;
             "latency" := JNum latency ]}) s5).

(** [RateLimitMiddleware]: the limit is taken and not used. *)
Definition RateLimitMiddleware {C} (requestsPerMinute : Z) (next : ExHandler C)
  : ExHandler C :=
  fun x s => next x s.

(** Sample collaborators and state for the handlers of this section. *)
Definition sample_rule (id name : string) (enabled : bool) : Rule.t (list string) :=
  Rule.mk id name "" "1" enabled "high" (Some ["proc.name = nc"]) ["notify"] 0 0.

Definition sample_ext (decoded : option (Rule.t (list string)))
  : Ext (list string) :=
  mkExt (fun k => String.append "uuid-" (String (ascii_of_nat (48 + k)) ""))
        (fun _ => decoded)
        (fun body => if String.eqb body "" then None else Some (body, None))
        (fun id rows =>
           List.find (fun a => String.eqb id
                        (String (ascii_of_nat (48 + N.to_nat (Alert.ID a))) ""))
                     rows).

Definition server0 (w : World) : Server (list string) := mkServer w [] [] 0.

Definition sample_exchange (method : string) (c : Context) : Exchange :=
  mkExchange c method "/v1/events" "10.0.0.1" ∅ ∅ None.

(** The three headers the CORS middleware sets. *)
Definition has_cors_headers (x : Exchange) : Prop :=
  ResponseHeader x !! "Access-Control-Allow-Origin" = Some "*" /\
  ResponseHeader x !! "Access-Control-Allow-Methods"
    = Some "GET, POST, PUT, DELETE, OPTIONS" /\
  ResponseHeader x !! "Access-Control-Allow-Headers"
    = Some "Origin, Content-Type, Authorization".

(** No two rules share a primary key. *)
Definition rule_keys_unique {C} (s : Server C) : Prop :=
  NoDup (map Rule.ID (rules s)).

(* ===================================================================== *)
(** ** Lemmas on the detection pass *)
(* ===================================================================== *)

Ltac unfold_m :=
  unfold exec, eval, bind, ret, log, go, statement, timeNow, get_db, put_db in *.

Lemma createAlert_run env e title severity w :
  createAlert env e title severity w =
  (tt,
   if db_fails env (stmts w)
   then mkWorld (db w) (logs w ++ [LogError "Failed to create alert"])
          (spawned w) (S (ticks w)) (S (stmts w))
   else mkWorld
          (mkDB (events (db w))
             (alerts (db w) ++
              [alert_of (alert_seq (db w) + 1) (Now env (ticks w)) e title severity])
             (event_seq (db w)) (alert_seq (db w) + 1))
          (logs w ++ [LogInfo "Created alert" "alert_id"
                        (Z.of_N (alert_seq (db w) + 1))])
          (spawned w) (S (ticks w)) (S (stmts w))).
Proof.
  unfold createAlert, Create_alert. unfold_m. cbn.
  destruct (db_fails env (stmts w)); reflexivity.
Qed.

Lemma emit_app env calls1 calls2 w :
  emit env (calls1 ++ calls2) w = emit env calls2 (exec (emit env calls1) w).
Proof.
  revert w. induction calls1 as [|[e [t s]] rest IH]; intros w.
  - reflexivity.
  - cbn [emit app]. unfold bind at 1. unfold exec, bind.
    destruct (createAlert env e t s w) as [[] w1]. apply IH.
Qed.

Lemma emit_run env calls w :
  emit env calls w =
  (tt,
   mkWorld
     (mkDB (events (db w))
        (alerts (db w) ++
         persisted env (ticks w) (stmts w) (alert_seq (db w)) calls)
        (event_seq (db w))
        (alert_seq (db w) +
         N.of_nat (length (persisted env (ticks w) (stmts w)
                             (alert_seq (db w)) calls))))
     (logs w ++ outcome_logs env (stmts w) (alert_seq (db w)) calls)
     (spawned w)
     (length calls + ticks w)
     (length calls + stmts w)).
Proof.
  revert w. induction calls as [|[e [t s]] rest IH]; intros w.
  - destruct w as [[evs als es sq] lg sp tk st]. cbn.
    rewrite !app_nil_r, N.add_0_r. reflexivity.
  - cbn [emit]. unfold bind. rewrite createAlert_run.
    rewrite IH. cbn [persisted outcome_logs length].
    destruct (db_fails env (stmts w)); cbn.
    + do 2 f_equal; [ | lia | lia ]. rewrite <- app_assoc. reflexivity.
    + rewrite <- !app_assoc. cbn.
      do 2 f_equal; [ | lia | lia ]. f_equal. lia.
Qed.

Lemma scan_vocabulary_run env e cmd vocabulary w :
  scan_vocabulary env e cmd vocabulary w =
  emit env (if existsb (Contains cmd) vocabulary
            then [(e, (suspicious_title, "high"))] else []) w.
Proof.
  induction vocabulary as [|word rest IH]; cbn [scan_vocabulary existsb].
  - reflexivity.
  - destruct (Contains cmd word); cbn [orb].
    + cbn [emit]. unfold bind, ret.
      destruct (createAlert env e _ _ w) as [[] w1]. reflexivity.
    + exact IH.
Qed.

Lemma scan_cmd_run env e cmds w :
  scan_cmd env e cmds w =
  emit env (map (fun _ => (e, (suspicious_title, "high")))
              (List.filter suspicious_token cmds)) w.
Proof.
  revert w. induction cmds as [|cmd rest IH]; intros w; cbn [scan_cmd List.filter].
  - reflexivity.
  - unfold bind at 1. rewrite scan_vocabulary_run.
    fold (suspicious_token cmd).
    destruct (suspicious_token cmd); cbn [map emit].
    + unfold bind at 1 2.
      destruct (createAlert env e _ _ w) as [[] w1]. cbn. apply IH.
    + cbn. apply IH.
Qed.

Lemma processEvent_run env e w :
  processEvent env e w = emit env (map (pair e) (rule_matches e)) w.
Proof.
  unfold processEvent, rule_matches, large_file.
  rewrite map_app, emit_app. unfold bind at 1, exec.
  assert (Hfst :
    (match Event.Process e with
     | Some proc => scan_cmd env e (ProcessInfo.Cmd proc)
     | None => ret tt
     end) w =
    emit env
      (map (pair e)
         match Event.Process e with
         | Some proc =>
             map (fun _ => (suspicious_title, "high"))
               (List.filter suspicious_token (ProcessInfo.Cmd proc))
         | None => []
         end) w).
  { destruct (Event.Process e) as [proc|]; [|reflexivity].
    rewrite scan_cmd_run, map_map. reflexivity. }
  rewrite Hfst.
  destruct (emit env _ w) as [[] w1]. cbn [snd].
  destruct (Event.File e) as [file|]; [|reflexivity].
  destruct (FileInfo.Size file) as [size|]; [|reflexivity].
  destruct (100 * 1024 * 1024 <? size)%N; [|reflexivity].
  cbn [map emit]. unfold bind, ret.
  destruct (createAlert env e _ _ w1) as [[] w2]. reflexivity.
Qed.

Lemma processEventsForAlerts_run env batch w :
  processEventsForAlerts env batch w = emit env (detections batch) w.
Proof.
  revert w. induction batch as [|e rest IH]; intros w.
  - reflexivity.
  - cbn [processEventsForAlerts]. unfold detections. cbn [flat_map].
    rewrite emit_app. unfold bind, exec.
    rewrite processEvent_run.
    destruct (emit env (map (pair e) (rule_matches e)) w) as [[] w1].
    cbn [snd]. apply IH.
Qed.

Lemma alerts_after_pass env batch w :
  alerts (db (exec (processEventsForAlerts env batch) w)) =
  alerts (db w) ++ new_alerts env batch w.
Proof.
  unfold new_alerts, exec.
  rewrite processEventsForAlerts_run, emit_run. cbn.
  rewrite drop_app_length. reflexivity.
Qed.

Lemma new_alerts_persisted env batch w :
  new_alerts env batch w =
  persisted env (ticks w) (stmts w) (alert_seq (db w)) (detections batch).
Proof.
  unfold new_alerts, exec.
  rewrite processEventsForAlerts_run, emit_run. cbn.
  apply drop_app_length.
Qed.

Lemma new_logs_outcomes env batch w :
  new_logs env batch w =
  outcome_logs env (stmts w) (alert_seq (db w)) (detections batch).
Proof.
  unfold new_logs, exec.
  rewrite processEventsForAlerts_run, emit_run. cbn.
  apply drop_app_length.
Qed.

(** With a healthy store every call leaves its alert, in order. *)
Lemma persisted_healthy env tick stmt seq calls :
  healthy env ->
  map (fun a => (Alert.Title a, Alert.Severity a))
      (persisted env tick stmt seq calls) = map snd calls.
Proof.
  intros Hok. revert tick stmt seq.
  induction calls as [|[e [t s]] rest IH]; intros tick stmt seq; cbn.
  - reflexivity.
  - rewrite Hok. cbn. f_equal. apply IH.
Qed.

(** Whatever the store does, an alert in the table comes from one of the
    calls and carries that call's event, title and severity. *)
Lemma persisted_origin env tick stmt seq calls :
  Forall (fun a => exists e,
            In (e, (Alert.Title a, Alert.Severity a)) calls /\
            made_from e a /\ rule_identity a)
         (persisted env tick stmt seq calls).
Proof.
  revert tick stmt seq.
  induction calls as [|[e [t s]] rest IH]; intros tick stmt seq; cbn [persisted].
  - constructor.
  - assert (Htl : Forall (fun a => exists e0,
                In (e0, (Alert.Title a, Alert.Severity a)) ((e, (t, s)) :: rest) /\
                made_from e0 a /\ rule_identity a)
              (persisted env (S tick) (S stmt)
                 (if db_fails env stmt then seq else (seq + 1)%N) rest)).
    { eapply Forall_impl; [apply IH|].
      intros a [e0 [Hin H]]. exists e0. split; [right; exact Hin | exact H]. }
    destruct (db_fails env stmt); [exact Htl|].
    constructor; [|exact Htl].
    exists e. split; [left; reflexivity|].
    split; [repeat split | repeat split].
Qed.

(** Each call ends in exactly one log line; the failed ones are the calls
    that left no alert. *)
Lemma outcome_logs_length env stmt seq calls :
  length (outcome_logs env stmt seq calls) = length calls.
Proof.
  revert stmt seq. induction calls as [|c rest IH]; intros stmt seq; cbn.
  - reflexivity.
  - destruct (db_fails env stmt); cbn; f_equal; apply IH.
Qed.

Lemma outcome_logs_balance env tick stmt seq calls :
  (length (persisted env tick stmt seq calls) +
   length (List.filter is_failure (outcome_logs env stmt seq calls)))%nat
  = length calls.
Proof.
  revert tick stmt seq.
  induction calls as [|[e [t s]] rest IH]; intros tick stmt seq; cbn.
  - reflexivity.
  - destruct (db_fails env stmt); cbn;
      [ specialize (IH (S tick) (S stmt) seq)
      | specialize (IH (S tick) (S stmt) (seq + 1)%N) ]; lia.
Qed.

Lemma count_titled_map title (l : list Alert.t) :
  length (List.filter (titled title) l) =
  length (List.filter (fun m : string * string => String.eqb (fst m) title)
            (map (fun a => (Alert.Title a, Alert.Severity a)) l)).
Proof.
  induction l as [|a l IH]; cbn; [reflexivity|].
  unfold titled at 1. destruct (String.eqb (Alert.Title a) title); cbn; lia.
Qed.

Lemma filter_const_true {A B} (f : B -> bool) (b : B) (l : list A) :
  f b = true -> List.filter f (map (fun _ => b) l) = map (fun _ => b) l.
Proof.
  intros Hb. induction l as [|x l IH]; cbn; [reflexivity|].
  rewrite Hb, IH. reflexivity.
Qed.

Lemma filter_const_false {A B} (f : B -> bool) (b : B) (l : list A) :
  f b = false -> List.filter f (map (fun _ => b) l) = [].
Proof.
  intros Hb. induction l as [|x l IH]; cbn; [reflexivity|].
  rewrite Hb, IH. reflexivity.
Qed.

Lemma detections_single e : detections [e] = map (pair e) (rule_matches e).
Proof. unfold detections. cbn. apply app_nil_r. Qed.

Lemma detections_app batch1 batch2 :
  detections (batch1 ++ batch2) = detections batch1 ++ detections batch2.
Proof. unfold detections. apply flat_map_app. Qed.

Lemma in_detections e m batch :
  In (e, m) (detections batch) -> In e batch /\ In m (rule_matches e).
Proof.
  unfold detections. rewrite in_flat_map. intros [e0 [Hin Hm]].
  apply in_map_iff in Hm. destruct Hm as [m0 [Heq Hm0]].
  inversion Heq; subst. split; assumption.
Qed.

(** The two rules and nothing else. *)
Lemma rule_matches_cases e title severity :
  In (title, severity) (rule_matches e) ->
  (title = suspicious_title /\ severity = "high") \/
  (title = large_file_title /\ severity = "medium" /\ large_file e = true).
Proof.
  unfold rule_matches. rewrite in_app_iff. intros [H|H].
  - left. destruct (Event.Process e) as [proc|]; [|destruct H].
    apply in_map_iff in H. destruct H as [tok [Heq _]].
    inversion Heq. split; reflexivity.
  - right. destruct (large_file e); [|destruct H].
    destruct H as [Heq|[]]. inversion Heq. repeat split.
Qed.

(** Alerts a healthy store holds after a pass over one event, by title
    and severity. *)
Lemma new_alerts_single_healthy env e w :
  healthy env ->
  map (fun a => (Alert.Title a, Alert.Severity a)) (new_alerts env [e] w)
  = rule_matches e.
Proof.
  intros Hok. rewrite new_alerts_persisted, persisted_healthy by exact Hok.
  rewrite detections_single, map_map. cbn. apply map_id.
Qed.

Lemma new_alerts_origin env batch w :
  Forall (fun a => exists e,
            In e batch /\ In (Alert.Title a, Alert.Severity a) (rule_matches e) /\
            made_from e a /\ rule_identity a)
         (new_alerts env batch w).
Proof.
  rewrite new_alerts_persisted.
  eapply Forall_impl; [apply persisted_origin|].
  intros a [e [Hin [Hmade Hid]]]. apply in_detections in Hin.
  exists e. tauto.
Qed.

Lemma failures_are_faults env stmt seq calls :
  length (List.filter is_failure (outcome_logs env stmt seq calls)) =
  length (List.filter (db_fails env) (List.seq stmt (length calls))).
Proof.
  revert stmt seq. induction calls as [|c rest IH]; intros stmt seq; cbn.
  - reflexivity.
  - destruct (db_fails env stmt); cbn; rewrite IH; reflexivity.
Qed.

(* ===================================================================== *)
(** ** Detection rules *)
(* ===================================================================== *)

(** C3 (as the code has it): with a store that accepts every insert, a
    detection pass over an event leaves one alert titled "Suspicious data
    transfer tool detected" per argv token that contains a word of the
    vocabulary (none when there is no process descriptor or no such
    token, exactly one when exactly one token matches); every such alert
    has severity high and is built from that event. *)
Theorem C3_one_alert_per_suspicious_token env e w :
  healthy env ->
  alerts (db (exec (processEventsForAlerts env [e]) w)) =
    alerts (db w) ++ new_alerts env [e] w /\
  length (List.filter (titled suspicious_title) (new_alerts env [e] w)) =
    match Event.Process e with
    | Some proc => length (List.filter suspicious_token (ProcessInfo.Cmd proc))
    | None => 0%nat
    end /\
  Forall (fun a => titled suspicious_title a = true ->
                   Alert.Severity a = "high" /\ made_from e a)
         (new_alerts env [e] w).
Proof.
  intros Hok. split; [apply alerts_after_pass|]. split.
  - rewrite count_titled_map, new_alerts_single_healthy by exact Hok.
    unfold rule_matches. rewrite List.filter_app, length_app.
    assert (Hlarge :
      List.filter (fun m : string * string => String.eqb (fst m) suspicious_title)
        (if large_file e then [(large_file_title, "medium")] else []) = []).
    { destruct (large_file e); reflexivity. }
    rewrite Hlarge. cbn [length]. rewrite Nat.add_0_r.
    destruct (Event.Process e) as [proc|]; [|reflexivity].
    rewrite filter_const_true by reflexivity.
    apply length_map.
  - eapply Forall_impl; [apply new_alerts_origin|].
    intros a [e0 [Hin [Hrule [Hmade _]]]] Htitle.
    destruct Hin as [->|[]]. split; [|exact Hmade].
    apply rule_matches_cases in Hrule.
    destruct Hrule as [[_ Hsev]|[Ht _]]; [exact Hsev|].
    unfold titled in Htitle. rewrite Ht in Htitle. discriminate.
Qed.

Lemma env_ok_healthy : healthy env_ok.
Proof. intros k. reflexivity. Qed.

Lemma C3_witness :
  healthy env_ok /\
  length (List.filter (titled suspicious_title)
            (new_alerts env_ok [event_curl] world0)) = 1%nat.
Proof.
  split; [exact env_ok_healthy|].
  exact (proj1 (proj2 (C3_one_alert_per_suspicious_token
                         env_ok event_curl world0 env_ok_healthy))).
Defined.

(** C3 as stated fails: an argv with two matching tokens yields two
    alerts for the one event, not exactly one. *)
Lemma C3_counterexample :
  healthy env_ok /\
  (exists proc, Event.Process event_curl_wget = Some proc /\
                existsb suspicious_token (ProcessInfo.Cmd proc) = true) /\
  length (List.filter (titled suspicious_title)
            (new_alerts env_ok [event_curl_wget] world0)) = 2%nat /\
  length (List.filter (titled suspicious_title)
            (new_alerts env_ok [event_curl_wget] world0)) <> 1%nat.
Proof.
  split; [exact env_ok_healthy|]. split.
  - eexists. split; reflexivity.
  - assert (H : length (List.filter (titled suspicious_title)
                (new_alerts env_ok [event_curl_wget] world0)) = 2%nat)
      by (vm_compute; reflexivity).
    split; [exact H|]. rewrite H. discriminate.
Qed.

(** C4: with a store that accepts every insert, a detection pass over an
    event carrying a file descriptor leaves exactly one alert titled
    "Large file operation detected" when the size is present and exceeds
    100*1024*1024 bytes, and none otherwise; such an alert has severity
    medium. *)
Theorem C4_large_file_alert env e file w :
  healthy env ->
  Event.File e = Some file ->
  length (List.filter (titled large_file_title) (new_alerts env [e] w)) =
    match FileInfo.Size file with
    | Some size => if (100 * 1024 * 1024 <? size)%N then 1%nat else 0%nat
    | None => 0%nat
    end /\
  Forall (fun a => titled large_file_title a = true ->
                   Alert.Severity a = "medium" /\ made_from e a)
         (new_alerts env [e] w).
Proof.
  intros Hok Hfile. split.
  - rewrite count_titled_map, new_alerts_single_healthy by exact Hok.
    unfold rule_matches, large_file. rewrite Hfile.
    rewrite List.filter_app, length_app.
    assert (Hproc :
      List.filter (fun m : string * string => String.eqb (fst m) large_file_title)
        match Event.Process e with
        | Some proc =>
            map (fun _ => (suspicious_title, "high"))
              (List.filter suspicious_token (ProcessInfo.Cmd proc))
        | None => []
        end = []).
    { destruct (Event.Process e); [|reflexivity].
      apply filter_const_false. reflexivity. }
    rewrite Hproc. cbn [length Nat.add].
    destruct (FileInfo.Size file) as [size|]; [|reflexivity].
    destruct (100 * 1024 * 1024 <? size)%N; reflexivity.
  - eapply Forall_impl; [apply new_alerts_origin|].
    intros a [e0 [Hin [Hrule [Hmade _]]]] Htitle.
    destruct Hin as [->|[]]. split; [|exact Hmade].
    apply rule_matches_cases in Hrule.
    destruct Hrule as [[Ht _]|[_ [Hsev _]]]; [|exact Hsev].
    unfold titled in Htitle. rewrite Ht in Htitle. discriminate.
Qed.

Lemma C4_witness :
  length (List.filter (titled large_file_title)
            (new_alerts env_ok [event_file_150] world0)) = 1%nat /\
  length (List.filter (titled large_file_title)
            (new_alerts env_ok [event_file_50] world0)) = 0%nat.
Proof.
  split.
  - exact (proj1 (C4_large_file_alert env_ok event_file_150 _ world0
                    env_ok_healthy eq_refl)).
  - exact (proj1 (C4_large_file_alert env_ok event_file_50 _ world0
                    env_ok_healthy eq_refl)).
Defined.

(** The threshold itself is not large: 100 MiB exactly, or a descriptor
    without a size, raises nothing. *)
Example large_file_boundary :
  new_alerts env_ok [event_file_100] world0 = [] /\
  new_alerts env_ok [event_file_no_size] world0 = [] /\
  map Alert.Title (new_alerts env_ok [event_file_150] world0)
    = [large_file_title].
Proof. vm_compute. repeat split. Qed.

(** When the event ids tell the tenants apart (an event of [population]
    that shares its id with an event of the batch is of the same tenant),
    the tenant of an alert is the tenant of every event of [population]
    that its evidence names. *)
Lemma evidence_names_events_of_one_tenant env batch population w :
  (forall e1 e2, In e1 batch -> In e2 population ->
     EventData.ID (Event.Event e1) = EventData.ID (Event.Event e2) ->
     Event.TenantID e1 = Event.TenantID e2) ->
  Forall (fun a => forall e, In e population ->
            In (EventData.ID (Event.Event e)) (Alert.Evidence a) ->
            Alert.TenantID a = Event.TenantID e)
         (new_alerts env batch w).
Proof.
  intros Hids.
  eapply Forall_impl; [apply new_alerts_origin|].
  intros a [e0 [Hin0 [_ [(Hten & _ & Hev & _) _]]]] e Hin Hnamed.
  rewrite Hev in Hnamed. destruct Hnamed as [Heq|[]].
  rewrite Hten. apply Hids; [exact Hin0 | exact Hin | exact Heq].
Qed.

(** C8 (as the code has it): [createAlert], the one operation that
    inserts alerts, appends exactly one alert when its insert succeeds and
    none when it fails, and builds the alert from its triggering event
    alone: tenant id of that event, entities
    {user: event.user.id, host: event.host_id}, evidence [event.event.id],
    status open. A detection pass only appends such alerts, one per rule
    match whose insert succeeded, each built from an event of the batch
    that matches the rule of its title. The alert's tenant id is the
    tenant id of every event its evidence names provided event ids are
    not shared between tenants. *)
Theorem C8_alert_copies_triggering_event env batch population w :
  (forall e title severity,
     alerts (db (exec (createAlert env e title severity) w)) =
       alerts (db w) ++
       (if db_fails env (stmts w) then []
        else [Alert.mk (alert_seq (db w) + 1) (Now env (ticks w)) severity title ""
                (Event.TenantID e) "RULE_AUTO" "1.0" 75
                {[ "user" := User.ID (Event.User e); "host" := Event.HostID e ]}
                [EventData.ID (Event.Event e)] "open" None None])) /\
  alerts (db (exec (processEventsForAlerts env batch) w)) =
    alerts (db w) ++ new_alerts env batch w /\
  (length (new_alerts env batch w) +
   length (List.filter (db_fails env)
             (List.seq (stmts w) (length (detections batch)))))%nat =
    length (detections batch) /\
  Forall (fun a => exists e, In e batch /\
            In (Alert.Title a, Alert.Severity a) (rule_matches e) /\
            Alert.TenantID a = Event.TenantID e /\
            Alert.Entities a =
              {[ "user" := User.ID (Event.User e); "host" := Event.HostID e ]} /\
            Alert.Evidence a = [EventData.ID (Event.Event e)] /\
            Alert.Status a = "open")
         (new_alerts env batch w) /\
  ((forall e1 e2, In e1 batch -> In e2 population ->
      EventData.ID (Event.Event e1) = EventData.ID (Event.Event e2) ->
      Event.TenantID e1 = Event.TenantID e2) ->
   Forall (fun a => forall e, In e population ->
             In (EventData.ID (Event.Event e)) (Alert.Evidence a) ->
             Alert.TenantID a = Event.TenantID e)
          (new_alerts env batch w)).
Proof.
  split_and!.
  - intros e title severity. unfold exec. rewrite createAlert_run.
    destruct (db_fails env (stmts w)); cbn [snd db alerts].
    + rewrite app_nil_r. reflexivity.
    + reflexivity.
  - apply alerts_after_pass.
  - rewrite <- failures_are_faults with (seq := alert_seq (db w)).
    rewrite new_alerts_persisted. apply outcome_logs_balance.
  - eapply Forall_impl; [apply new_alerts_origin|].
    intros a [e [Hin [Hrule [Hmade _]]]]. exists e.
    split; [exact Hin|]. split; [exact Hrule|exact Hmade].
  - apply evidence_names_events_of_one_tenant.
Qed.

Lemma C8_witness :
  Forall (fun a => forall e, In e [event_t1; event_t2] ->
            In (EventData.ID (Event.Event e)) (Alert.Evidence a) ->
            Alert.TenantID a = Event.TenantID e)
         (new_alerts env_ok [event_t1; event_t2] world0) /\
  map Alert.TenantID (new_alerts env_ok [event_t1; event_t2] world0) = ["t1"; "t2"].
Proof.
  split; [|reflexivity].
  apply (C8_alert_copies_triggering_event env_ok [event_t1; event_t2]
           [event_t1; event_t2] world0).
  intros e1 e2 H1 H2.
  destruct H1 as [<-|[<-|[]]]; destruct H2 as [<-|[<-|[]]];
    cbn; intros Heq; try reflexivity; discriminate Heq.
Defined.

(** C8 as stated fails: event ids are chosen by the clients, so two
    tenants can send the same one. The alert raised for tenant t1's event
    then names, in its evidence, an event of tenant t2 as well. *)
Lemma C8_counterexample :
  let batch := [event_shared_t1; event_shared_t2] in
  exists a e,
    new_alerts env_ok batch world0 = [a] /\
    In e batch /\
    In (EventData.ID (Event.Event e)) (Alert.Evidence a) /\
    Alert.TenantID a = "t1" /\
    Event.TenantID e = "t2" /\
    Alert.TenantID a <> Event.TenantID e.
Proof.
  cbn zeta.
  exists (alert_of 1 0 event_shared_t1 suspicious_title "high"), event_shared_t2.
  split; [vm_compute; reflexivity|].
  split; [right; left; reflexivity|].
  split; [left; reflexivity|].
  split; [reflexivity|]. split; [reflexivity|].
  discriminate.
Qed.

(** C9: whatever statements the store fails, a pass makes one
    [createAlert] call per rule match of every event of the batch: each
    call ends in one log line, a call either leaves its alert or a
    "Failed to create alert" error line, and there are as many error
    lines as failed statements. A failure at one event therefore does not
    stop the evaluation of the others. *)
Theorem C9_faults_do_not_stop_the_pass env batch w :
  logs (exec (processEventsForAlerts env batch) w) =
    logs w ++ new_logs env batch w /\
  length (new_logs env batch w) = length (detections batch) /\
  (length (new_alerts env batch w) +
   length (List.filter is_failure (new_logs env batch w)))%nat =
    length (detections batch) /\
  length (List.filter is_failure (new_logs env batch w)) =
    length (List.filter (db_fails env)
              (List.seq (stmts w) (length (detections batch)))) /\
  (forall before e after,
     detections (before ++ e :: after) =
       detections before ++ map (pair e) (rule_matches e) ++ detections after).
Proof.
  split; [|split; [|split; [|split]]].
  - unfold new_logs, exec.
    rewrite processEventsForAlerts_run, emit_run. cbn.
    rewrite drop_app_length. reflexivity.
  - rewrite new_logs_outcomes. apply outcome_logs_length.
  - rewrite new_logs_outcomes, new_alerts_persisted. apply outcome_logs_balance.
  - rewrite new_logs_outcomes. apply failures_are_faults.
  - intros before e after.
    rewrite detections_app. reflexivity.
Qed.

(** C10: every alert a detection pass appends carries rule id
    "RULE_AUTO", rule version "1.0" and score 75, whichever rule
    matched. *)
Theorem C10_constant_rule_identity env batch w :
  alerts (db (exec (processEventsForAlerts env batch) w)) =
    alerts (db w) ++ new_alerts env batch w /\
  Forall (fun a => Alert.RuleID a = "RULE_AUTO" /\
                   Alert.RuleVersion a = "1.0" /\
                   Alert.UEBAScore a = 75)
         (new_alerts env batch w).
Proof.
  split; [apply alerts_after_pass|].
  eapply Forall_impl; [apply new_alerts_origin|].
  intros a [e [_ [_ [_ Hid]]]]. exact Hid.
Qed.

(* ===================================================================== *)
(** ** The placeholder routes *)
(* ===================================================================== *)

Lemma print_events_run {E} (show : E -> string) (batch : list E) w :
  print_events show batch w =
  (tt, mkWorld (db w)
         (logs w ++ map (fun e => LogPrintf "Received event: %+v" (show e)) batch)
         (spawned w) (ticks w) (stmts w)).
Proof.
  revert w. induction batch as [|e rest IH]; intros w.
  - destruct w. cbn. rewrite app_nil_r. reflexivity.
  - cbn [print_events]. unfold bind, log. rewrite IH. cbn.
    rewrite <- app_assoc. reflexivity.
Qed.

(** The placeholder [POST /v1/events] of main.go answers with the same
    receipt as [IngestEvents] but stores nothing, and the placeholder
    [GET /v1/events] returns no event whatever the store holds. *)
Lemma main_POST_events_receipt {E} (bind_json : string -> list E + string)
    (show : E -> string) c w batch :
  bind_json (Body c) = inl batch ->
  Written (eval (main_POST_events bind_json show c) w) =
    Some (ok_receipt (length batch)) /\
  db (exec (main_POST_events bind_json show c) w) = db w /\
  returned_events (eval (main_GET_events c)
                     (exec (main_POST_events bind_json show c) w)) = [].
Proof.
  intros Hbind. unfold main_POST_events, eval, exec. rewrite Hbind.
  unfold bind. rewrite print_events_run. repeat split.
Qed.

(* ===================================================================== *)
(** ** Ingestion *)
(* ===================================================================== *)

Lemma stamp_events_run env batch w :
  stamp_events env batch w =
  (stamped env (ticks w) batch,
   mkWorld (db w) (logs w) (spawned w) (2 * length batch + ticks w) (stmts w)).
Proof.
  revert w. induction batch as [|e rest IH]; intros w.
  - destruct w; reflexivity.
  - cbn [stamp_events stamped]. unfold_m. rewrite IH. cbn.
    do 2 f_equal. lia.
Qed.

(** GORM refuses the schema of [Event]: the insert of a chunk returns
    the error and nothing reaches the database. *)
Lemma Event_schema_refused : schema_builds Event_schema = false.
Proof. reflexivity. Qed.

Lemma insert_events_run env rows w : insert_events env rows w = (None, w).
Proof. reflexivity. Qed.

Lemma create_chunks_run env fuel batchSize r rest w :
  create_chunks env (S fuel) batchSize (r :: rest) w = (None, w).
Proof.
  cbn [create_chunks]. unfold bind. rewrite insert_events_run. reflexivity.
Qed.

(** The bulk insert succeeds for the empty slice only, and changes
    nothing either way. *)
Lemma CreateInBatch_run env rows batchSize w :
  CreateInBatch env rows batchSize w =
  (match rows with
   | [] => Some []
   | _ :: _ => None
   end, w).
Proof.
  unfold CreateInBatch. cbn zeta.
  destruct (SkipDefaultTransaction env || (length rows <=? batchSize)%nat).
  - destruct rows as [|r rest]; [reflexivity|].
    cbn [length]. apply create_chunks_run.
  - unfold Transaction, bind, get_db, put_db, ret.
    destruct rows as [|r rest]; [reflexivity|].
    cbn [length]. rewrite create_chunks_run. destruct w; reflexivity.
Qed.

(** [IngestEvents] on a body that binds. *)
Lemma IngestEvents_run env c w batch :
  ShouldBindJSON env (Body c) = Some batch ->
  IngestEvents env c w =
  match batch with
  | [] =>
      (c_JSON StatusOK {[ "status" := JStr "ok"; "count" := JNum 0 ]} c,
       mkWorld (db w)
         (logs w ++ [LogInfo "Successfully ingested events" "count" 0])
         (spawned w ++ [[]]) (ticks w) (stmts w))
  | _ :: _ =>
      (c_JSON StatusInternalServerError
         {[ "error" := JStr "Failed to process events" ]} c,
       mkWorld (db w) (logs w ++ [LogError "Failed to insert events"])
         (spawned w) (2 * length batch + ticks w) (stmts w))
  end.
Proof.
  intros Hbind. unfold IngestEvents. rewrite Hbind.
  unfold bind. rewrite stamp_events_run, CreateInBatch_run.
  destruct batch as [|e rest]; [destruct w|]; reflexivity.
Qed.



(** [GET /v1/events] never gets to its SELECT: GORM refuses the schema of
    [Event], the handler logs the error and answers 500. *)
Lemma GetEvents_run env c w :
  GetEvents env c w =
  (c_JSON StatusInternalServerError {[ "error" := JStr "Failed to query events" ]} c,
   mkWorld (db w) (logs w ++ [LogError "Failed to query events"])
     (spawned w) (ticks w) (stmts w)).
Proof. reflexivity. Qed.

(** C5 does not hold of the handlers. [IngestEvents] answers every
    non-empty batch with 500 "Failed to process events", whatever the
    store does: GORM refuses the schema of [Event] before it has a
    statement to send, so nothing is stored, no detection pass is
    scheduled, and [GET /v1/events] answers 500 as well. The placeholder
    that main.go registers for the route answers 200 with the count, and
    stores nothing either. *)
Theorem C5_nonempty_batch_is_never_stored env c w batch :
  ShouldBindJSON env (Body c) = Some batch ->
  batch <> [] ->
  let c' := eval (IngestEvents env c) w in
  let w' := exec (IngestEvents env c) w in
  Written c' = Some (error_response StatusInternalServerError
                       "Failed to process events") /\
  db w' = db w /\
  spawned w' = spawned w /\
  stmts w' = stmts w /\
  logs w' = logs w ++ [LogError "Failed to insert events"] /\
  (forall q,
     Written (eval (GetEvents env q) w') =
       Some (error_response StatusInternalServerError "Failed to query events")) /\
  (forall (E : Type) (bind_json : string -> list E + string) (show : E -> string)
          (sent : list E),
     bind_json (Body c) = inl sent ->
     Written (eval (main_POST_events bind_json show c) w) =
       Some (ok_receipt (length sent)) /\
     db (exec (main_POST_events bind_json show c) w) = db w /\
     returned_events (eval (main_GET_events c)
                        (exec (main_POST_events bind_json show c) w)) = []).
Proof.
  intros Hbind Hne. cbn zeta. unfold eval, exec.
  rewrite (IngestEvents_run env c w batch Hbind).
  destruct batch as [|e rest]; [destruct (Hne eq_refl)|].
  cbn [fst snd db spawned stmts logs]. split_and!; try reflexivity.
  intros E bind_json show sent Hsent.
  apply main_POST_events_receipt. exact Hsent.
Qed.

Lemma C5_witness :
  let env := env_with (Some [event_curl; event_file_150]) (fun _ => false) in
  let c := request ∅ ∅ "[...]" in
  healthy env /\
  Written (eval (IngestEvents env c) world0) =
    Some (error_response StatusInternalServerError "Failed to process events") /\
  events (db (exec (IngestEvents env c) world0)) = [].
Proof.
  cbn zeta. split; [intros k; reflexivity|].
  destruct (C5_nonempty_batch_is_never_stored
              (env_with (Some [event_curl; event_file_150]) (fun _ => false))
              (request ∅ ∅ "[...]") world0 [event_curl; event_file_150]
              eq_refl ltac:(discriminate))
    as (Hresp & Hdb & _).
  split; [exact Hresp|]. rewrite Hdb. reflexivity.
Defined.

(** C6: when the body does not bind to the event array shape,
    [POST /v1/events] answers 400 "Invalid JSON format"; the database is
    untouched, no detection pass is scheduled, and the only trace is one
    error line in the log. *)
Theorem C6_malformed_body_rejected env c w :
  ShouldBindJSON env (Body c) = None ->
  Written (eval (IngestEvents env c) w) =
    Some (error_response StatusBadRequest "Invalid JSON format") /\
  exec (IngestEvents env c) w =
    mkWorld (db w) (logs w ++ [LogError "Failed to bind events JSON"])
            (spawned w) (ticks w) (stmts w).
Proof.
  intros Hbind. unfold IngestEvents, eval, exec. rewrite Hbind.
  split; reflexivity.
Qed.

Lemma C6_witness :
  Written (eval (IngestEvents env_ok (request ∅ ∅ "{not json")) world0) =
    Some (error_response StatusBadRequest "Invalid JSON format") /\
  db (exec (IngestEvents env_ok (request ∅ ∅ "{not json")) world0) = db world0.
Proof.
  destruct (C6_malformed_body_rejected env_ok (request ∅ ∅ "{not json") world0
              eq_refl) as [Hresp Hw].
  split; [exact Hresp|]. rewrite Hw. reflexivity.
Defined.

(* ===================================================================== *)
(** ** The auth gate *)
(* ===================================================================== *)

Lemma drop_chars_length s pre :
  HasPrefix s pre = true ->
  (String.length (drop_chars (String.length pre) s) + String.length pre)%nat
  = String.length s.
Proof.
  revert s. induction pre as [|ch pre IH]; intros s Hpre; cbn.
  - lia.
  - destruct s as [|d s]; [discriminate|]. cbn in *.
    apply andb_true_iff in Hpre. destruct Hpre as [_ Hpre].
    specialize (IH s Hpre). lia.
Qed.

(** The comparison [tokenString == authHeader] of the gate is the test
    for the missing prefix. *)
Lemma TrimPrefix_same s :
  String.eqb (TrimPrefix s "Bearer ") s = negb (HasPrefix s "Bearer ").
Proof.
  unfold TrimPrefix. destruct (HasPrefix s "Bearer ") eqn:Hpre; cbn [negb].
  - apply String.eqb_neq. intros Heq.
    pose proof (drop_chars_length s "Bearer " Hpre) as Hlen.
    rewrite Heq in Hlen. cbn in Hlen. lia.
  - apply String.eqb_refl.
Qed.

(** C7 (as the code has it): each of the four failures of the auth gate
    ends the request with status 401 and the chain aborted, without
    touching the context keys or the server state. The body is
    {error: message}: signature-invalid and expired tokens share the
    message "Invalid token", while an absent header and a malformed header
    each have a message of their own. *)
Theorem C7_auth_failures_are_unauthorized env jwtSecret c w f :
  auth_failure env jwtSecret c f ->
  AuthMiddleware env jwtSecret c w =
  (Abort (c_JSON StatusUnauthorized {[ "error" := JStr (auth_message f) ]} c), w).
Proof.
  unfold auth_failure, AuthMiddleware, ret. cbn zeta.
  destruct f; intros Hf.
  - rewrite Hf. reflexivity.
  - destruct Hf as [Hne Hpre].
    apply String.eqb_neq in Hne. rewrite Hne.
    rewrite TrimPrefix_same, Hpre. reflexivity.
  - destruct Hf as [Hpre Herr].
    assert (Hne : String.eqb (GetHeader c "Authorization") "" = false).
    { destruct (GetHeader c "Authorization"); [discriminate|reflexivity]. }
    rewrite Hne, TrimPrefix_same, Hpre, Herr. reflexivity.
  - destruct Hf as [Hpre Herr].
    assert (Hne : String.eqb (GetHeader c "Authorization") "" = false).
    { destruct (GetHeader c "Authorization"); [discriminate|reflexivity]. }
    rewrite Hne, TrimPrefix_same, Hpre, Herr. reflexivity.
Qed.

Lemma C7_witness :
  status_of (eval (AuthMiddleware env_auth "secret"
                     (request (bearer "tok-expired") ∅ "")) world0)
  = Some StatusUnauthorized /\
  status_of (eval (AuthMiddleware env_auth "secret"
                     (request (bearer "tok-forged") ∅ "")) world0)
  = Some StatusUnauthorized.
Proof.
  split.
  - unfold eval.
    rewrite (C7_auth_failures_are_unauthorized env_auth "secret"
               (request (bearer "tok-expired") ∅ "") world0 TokenExpired
               (conj eq_refl eq_refl)).
    reflexivity.
  - unfold eval.
    rewrite (C7_auth_failures_are_unauthorized env_auth "secret"
               (request (bearer "tok-forged") ∅ "") world0 SignatureInvalid
               (conj eq_refl eq_refl)).
    reflexivity.
Defined.

(** C7 as stated fails in its last part: the caller can tell an absent
    header from a malformed one, and both from a rejected token, by the
    error message of the 401 response. *)
Lemma C7_counterexample :
  let absent := eval (AuthMiddleware env_auth "secret" (request ∅ ∅ "")) world0 in
  let malformed :=
    eval (AuthMiddleware env_auth "secret"
            (request {[ "Authorization" := "Token tok-t1" ]} ∅ "")) world0 in
  let expired :=
    eval (AuthMiddleware env_auth "secret"
            (request (bearer "tok-expired") ∅ "")) world0 in
  status_of absent = Some StatusUnauthorized /\
  status_of malformed = Some StatusUnauthorized /\
  status_of expired = Some StatusUnauthorized /\
  error_text absent = Some "Authorization header required" /\
  error_text malformed = Some "Bearer token required" /\
  error_text expired = Some "Invalid token" /\
  Written absent <> Written malformed /\
  Written malformed <> Written expired.
Proof.
  cbn zeta. split_and!; try (vm_compute; reflexivity).
  - intros Heq.
    apply (f_equal (fun r => match r with
                             | Some r => Payload r !! "error"
                             | None => None
                             end)) in Heq.
    vm_compute in Heq. discriminate Heq.
  - intros Heq.
    apply (f_equal (fun r => match r with
                             | Some r => Payload r !! "error"
                             | None => None
                             end)) in Heq.
    vm_compute in Heq. discriminate Heq.
Qed.

(* ===================================================================== *)
(** ** Tenant scoping of the query handlers *)
(* ===================================================================== *)

(** [GET /v1/alerts]: one SELECT; the answer is 200 with the page when
    the statement succeeds and every row of the page can be read back,
    and 500 with one error line otherwise. *)
Lemma GetAlerts_run env c w :
  GetAlerts env c w =
  if negb (db_fails env (stmts w)) && forallb Alert_scans (alerts_page c (db w))
  then (c_JSON StatusOK
          {[ "alerts" := JAlerts (alerts_page c (db w));
             "page" := JNum (Atoi (DefaultQuery c "page" "1"));
             "limit" := JNum (Atoi (DefaultQuery c "limit" "50")) ]} c,
        mkWorld (db w) (logs w) (spawned w) (ticks w) (S (stmts w)))
  else (c_JSON StatusInternalServerError
          {[ "error" := JStr "Failed to query alerts" ]} c,
        mkWorld (db w) (logs w ++ [LogError "Failed to query alerts"])
          (spawned w) (ticks w) (S (stmts w))).
Proof.
  unfold GetAlerts, Find, with_schema, alerts_page.
  change (schema_builds Alert_schema) with true. cbn iota.
  unfold bind, statement, get_db, ret, log. cbn [db stmts logs spawned ticks].
  destruct (db_fails env (stmts w)); cbn [negb andb]; [reflexivity|].
  destruct (forallb Alert_scans _); reflexivity.
Qed.

(** The query handlers never read the context keys: whatever the auth
    gate stored there, the answer is the same. *)
Lemma GetEvents_ignores_keys env c keys w :
  Written (eval (GetEvents env (with_keys keys c)) w) =
  Written (eval (GetEvents env c) w) /\
  exec (GetEvents env (with_keys keys c)) w = exec (GetEvents env c) w.
Proof. unfold eval, exec. rewrite !GetEvents_run. split; reflexivity. Qed.

Lemma GetAlerts_ignores_keys env c keys w :
  Written (eval (GetAlerts env (with_keys keys c)) w) =
  Written (eval (GetAlerts env c) w) /\
  exec (GetAlerts env (with_keys keys c)) w = exec (GetAlerts env c) w.
Proof.
  unfold eval, exec. rewrite !GetAlerts_run.
  change (alerts_page (with_keys keys c)) with (alerts_page c).
  destruct (negb (db_fails env (stmts w)) &&
            forallb Alert_scans (alerts_page c (db w))); split; reflexivity.
Qed.

(** The conditions of the two SELECTs come from the query string alone. *)
Lemma filters_ignore_keys env c keys :
  events_filters env (with_keys keys c) = events_filters env c /\
  alerts_filters (with_keys keys c) = alerts_filters c.
Proof. split; reflexivity. Qed.

(** C1 does not hold of the handlers. A caller whose token is for tenant
    t2 gets, through the bearer-protected route, the alert of tenant t1 --
    without a [tenant_id] parameter (both tenants are returned) as well as
    with [tenant_id=t1]. The tenant id of the security context is in the
    context keys all along and is not used: for every request, the
    conditions both handlers put into their SELECT, and their answers, are
    the same whatever the context keys hold. *)
Theorem C1_cross_tenant_read :
  let plain := request (bearer "tok-t2") ∅ "" in
  let asking_t1 := request (bearer "tok-t2") {[ "tenant_id" := "t1" ]} "" in
  let alerts_plain :=
    eval (run_chain (route_GET_alerts env_auth "secret") plain) two_tenants in
  let alerts_t1 :=
    eval (run_chain (route_GET_alerts env_auth "secret") asking_t1) two_tenants in
  Get alerts_plain "tenant_id" = Some "t2" /\
  status_of alerts_plain = Some StatusOK /\
  map Alert.TenantID (returned_alerts alerts_plain) = ["t2"; "t1"] /\
  Get alerts_t1 "tenant_id" = Some "t2" /\
  status_of alerts_t1 = Some StatusOK /\
  map Alert.TenantID (returned_alerts alerts_t1) = ["t1"] /\
  (forall env c keys,
     events_filters env (with_keys keys c) = events_filters env c /\
     alerts_filters (with_keys keys c) = alerts_filters c) /\
  (forall env c keys w,
     Written (eval (GetEvents env (with_keys keys c)) w) =
       Written (eval (GetEvents env c) w) /\
     Written (eval (GetAlerts env (with_keys keys c)) w) =
       Written (eval (GetAlerts env c) w)).
Proof.
  cbn zeta.
  do 6 (split; [vm_compute; reflexivity|]).
  split.
  - apply filters_ignore_keys.
  - intros env c keys w. split.
    + apply GetEvents_ignores_keys.
    + apply GetAlerts_ignores_keys.
Qed.

(* ===================================================================== *)
(** ** End to end *)
(* ===================================================================== *)

(** One event of tenant t1 whose argv is ["wget","http://evil"], sent to
    a server whose database accepts every statement. The ingestion is
    answered 500 and schedules no pass. A detection pass run on the event
    raises one alert, of severity high; the row cannot be read back, so
    [GET /v1/alerts?tenant_id=t1] answers 500 from then on. *)
Example scenario_wget :
  let env := env_with (Some [event_wget]) (fun _ => false) in
  let after_post := IngestEvents env (request ∅ ∅ "[...]") world0 in
  let after_pass := exec (processEventsForAlerts env [event_wget]) world0 in
  let answer :=
    eval (GetAlerts env (request ∅ {[ "tenant_id" := "t1" ]} "")) after_pass in
  status_of (fst after_post) = Some StatusInternalServerError /\
  spawned (snd after_post) = [] /\
  alerts (db (exec (run_spawned env) (snd after_post))) = [] /\
  map Alert.Severity (alerts (db after_pass)) = ["high"] /\
  map Alert.Title (alerts (db after_pass)) = [suspicious_title] /\
  status_of answer = Some StatusInternalServerError.
Proof. vm_compute. repeat split. Qed.

(* ===================================================================== *)
(** ** More on the detection pass *)
(* ===================================================================== *)

Lemma HasPrefix_occurs s pre :
  HasPrefix s pre = true <-> exists post, s = String.append pre post.
Proof.
  revert s. induction pre as [|ch pre IH]; intros s; cbn.
  - split; [intros _; exists s; reflexivity | intros _; destruct s; reflexivity].
  - destruct s as [|d s].
    + split; [discriminate | intros [post Hpost]; discriminate].
    + cbn. rewrite andb_true_iff, IH. split.
      * intros [Hch [post ->]]. apply Ascii.eqb_eq in Hch. subst d.
        exists post. reflexivity.
      * intros [post Hpost]. inversion Hpost; subst.
        split; [apply Ascii.eqb_refl | exists post; reflexivity].
Qed.

Lemma Contains_occurs s word : Contains s word = true <-> occurs_in word s.
Proof.
  unfold occurs_in. induction s as [|d s IH].
  - cbn [Contains]. rewrite orb_false_r, HasPrefix_occurs. split.
    + intros [post Hpost]. exists "", post. exact Hpost.
    + intros [pre [post Hs]]. destruct pre; [|discriminate].
      exists post. exact Hs.
  - cbn [Contains]. rewrite orb_true_iff, IH, HasPrefix_occurs. split.
    + intros [[post Hpost]|[pre [post Hs]]].
      * exists "", post. exact Hpost.
      * exists (String d pre), post. cbn. rewrite Hs. reflexivity.
    + intros [pre [post Hs]]. destruct pre as [|d' pre].
      * left. exists post. exact Hs.
      * right. cbn in Hs. inversion Hs; subst. exists pre, post. reflexivity.
Qed.

(** X1: the vocabulary scan of one argv token raises the
    suspicious-tool alert exactly when one of the six words netcat, ncat,
    wget, curl, scp, rclone occurs somewhere in the token (as a
    substring, not only as the whole token); otherwise it does nothing
    at all. *)
Theorem scan_vocabulary_substring env e cmd w :
  ((exists word, In word suspiciousCmds /\ occurs_in word cmd) ->
   scan_vocabulary env e cmd suspiciousCmds w =
   createAlert env e "Suspicious data transfer tool detected" "high" w) /\
  (~ (exists word, In word suspiciousCmds /\ occurs_in word cmd) ->
   scan_vocabulary env e cmd suspiciousCmds w = (tt, w)).
Proof.
  assert (Hiff : existsb (Contains cmd) suspiciousCmds = true <->
                 exists word, In word suspiciousCmds /\ occurs_in word cmd).
  { rewrite existsb_exists. split; intros [word [Hin H]]; exists word;
      (split; [exact Hin|]); apply Contains_occurs; exact H. }
  rewrite scan_vocabulary_run. split; intros H.
  - apply Hiff in H. rewrite H. cbn [emit]. unfold bind, ret.
    destruct (createAlert env e _ _ w) as [[] w1]. reflexivity.
  - destruct (existsb (Contains cmd) suspiciousCmds) eqn:Hex.
    + exfalso. apply H, Hiff. reflexivity.
    + reflexivity.
Qed.

(** X2: a pass over a batch is the pass over its first part followed by
    the pass over the rest: splitting a batch into smaller ones, run in
    order, changes nothing. *)
Theorem detection_pass_splits env batch1 batch2 w :
  processEventsForAlerts env (batch1 ++ batch2) w =
  processEventsForAlerts env batch2 (exec (processEventsForAlerts env batch1) w).
Proof.
  rewrite !processEventsForAlerts_run, detections_app, emit_app.
  unfold exec. rewrite processEventsForAlerts_run. reflexivity.
Qed.

Lemma persisted_content_healthy env tick stmt seq calls :
  healthy env ->
  map alert_content (persisted env tick stmt seq calls) =
  map (fun call : Event.t * (string * string) =>
         alert_of 0 0 (fst call) (fst (snd call)) (snd (snd call))) calls.
Proof.
  intros Hok. revert tick stmt seq.
  induction calls as [|[e [t s]] rest IH]; intros tick stmt seq; cbn.
  - reflexivity.
  - rewrite Hok. cbn. f_equal. apply IH.
Qed.

(** X3: detection does not deduplicate. With a store that accepts every
    insert, running the pass on the same batch a second time appends the
    same alerts once more (same title, severity, tenant, entities and
    evidence; only key and stamp differ). *)
Theorem repeated_pass_repeats_alerts env batch w :
  healthy env ->
  let w1 := exec (processEventsForAlerts env batch) w in
  let w2 := exec (processEventsForAlerts env batch) w1 in
  alerts (db w2) =
    alerts (db w) ++ new_alerts env batch w ++ new_alerts env batch w1 /\
  map alert_content (new_alerts env batch w1) =
    map alert_content (new_alerts env batch w).
Proof.
  intros Hok. cbn zeta. split.
  - rewrite !alerts_after_pass, app_assoc. reflexivity.
  - rewrite !new_alerts_persisted, !persisted_content_healthy by exact Hok.
    reflexivity.
Qed.

Lemma repeated_pass_repeats_alerts_witness :
  map Alert.Title
    (alerts (db (exec (processEventsForAlerts env_ok [event_curl])
                   (exec (processEventsForAlerts env_ok [event_curl]) world0))))
  = [suspicious_title; suspicious_title].
Proof.
  rewrite (proj1 (repeated_pass_repeats_alerts env_ok [event_curl] world0
                    env_ok_healthy)).
  reflexivity.
Defined.

Lemma persisted_keys env tick stmt seq calls :
  Forall (fun a => (seq < Alert.ID a <=
                    seq + N.of_nat (length (persisted env tick stmt seq calls)))%N)
         (persisted env tick stmt seq calls) /\
  NoDup (map Alert.ID (persisted env tick stmt seq calls)).
Proof.
  revert tick stmt seq.
  induction calls as [|[e [t s]] rest IH]; intros tick stmt seq; cbn [persisted].
  - split; constructor.
  - destruct (db_fails env stmt); [apply IH|].
    destruct (IH (S tick) (S stmt) (seq + 1)%N) as [Hrange Hnodup].
    cbn [length map]. split.
    + constructor; [cbn; lia|].
      eapply Forall_impl; [exact Hrange|]. cbn. intros a Ha. lia.
    + apply NoDup_cons. split; [|exact Hnodup].
      cbn. intros Hin. apply list_elem_of_In, in_map_iff in Hin.
      destruct Hin as [a [Hid Ha]].
      rewrite List.Forall_forall in Hrange. specialize (Hrange a Ha). cbn in Hrange.
      lia.
Qed.

(** X4: a detection pass keeps the alert keys in order (all handed out
    by the sequence, no two alerts with the same key), whatever inserts
    fail, and leaves the event table and the pending passes alone. *)
Theorem detection_pass_keeps_keys env batch w :
  alert_keys_fresh (db w) ->
  let w' := exec (processEventsForAlerts env batch) w in
  alert_keys_fresh (db w') /\
  events (db w') = events (db w) /\
  event_seq (db w') = event_seq (db w) /\
  spawned w' = spawned w.
Proof.
  intros [Hle Hnodup]. cbn zeta. unfold exec.
  rewrite processEventsForAlerts_run, emit_run. cbn [snd db events event_seq spawned].
  split; [|repeat split].
  destruct (persisted_keys env (ticks w) (stmts w) (alert_seq (db w))
              (detections batch)) as [Hrange Hnew].
  unfold alert_keys_fresh. cbn [alerts alert_seq]. split.
  - apply Forall_app. split.
    + eapply Forall_impl; [exact Hle|]. cbn. intros a Ha. lia.
    + eapply Forall_impl; [exact Hrange|]. cbn. intros a Ha. lia.
  - rewrite map_app. apply NoDup_app. split; [exact Hnodup|]. split; [|exact Hnew].
    intros k Hold Hk.
    apply list_elem_of_In, in_map_iff in Hold. destruct Hold as [a [<- Ha]].
    apply list_elem_of_In, in_map_iff in Hk. destruct Hk as [b [Hid Hb]].
    rewrite List.Forall_forall in Hle, Hrange.
    specialize (Hle a Ha). specialize (Hrange b Hb). cbn in Hle, Hrange. lia.
Qed.

Lemma detection_pass_keeps_keys_witness :
  alert_keys_fresh
    (db (exec (processEventsForAlerts env_ok [event_curl_wget]) world0)).
Proof.
  apply (detection_pass_keeps_keys env_ok [event_curl_wget] world0).
  split; constructor.
Defined.

(* ===================================================================== *)
(** ** More on ingestion *)
(* ===================================================================== *)

(** X6: an empty batch is accepted without talking to the database: the
    answer is 200 {status: "ok", count: 0} even when the store fails
    every statement, no statement is sent, and an (empty) detection pass
    is still scheduled. *)
Theorem empty_batch_is_accepted env c w :
  ShouldBindJSON env (Body c) = Some [] ->
  IngestEvents env c w =
  (c_JSON StatusOK {[ "status" := JStr "ok"; "count" := JNum 0 ]} c,
   mkWorld (db w)
     (logs w ++ [LogInfo "Successfully ingested events" "count" 0])
     (spawned w ++ [[]]) (ticks w) (stmts w)).
Proof.
  intros Hbind. rewrite (IngestEvents_run env c w [] Hbind). reflexivity.
Qed.

Lemma empty_batch_is_accepted_witness :
  status_of (eval (IngestEvents (env_with (Some []) (fun _ => true))
                     (request ∅ ∅ "[]")) world0) = Some StatusOK.
Proof.
  unfold eval.
  rewrite (empty_batch_is_accepted (env_with (Some []) (fun _ => true))
             (request ∅ ∅ "[]") world0 eq_refl).
  reflexivity.
Defined.




(* ===================================================================== *)
(** ** More on the query handlers *)
(* ===================================================================== *)

Lemma nonempty_false s : nonempty s = false -> s = "".
Proof.
  unfold nonempty. intros H. apply negb_false_iff in H.
  apply String.eqb_eq. exact H.
Qed.


Lemma GetAlerts_returned env c w :
  returned_alerts (eval (GetAlerts env c) w) =
  if negb (db_fails env (stmts w)) && forallb Alert_scans (alerts_page c (db w))
  then alerts_page c (db w)
  else [].
Proof.
  unfold eval, returned_alerts. rewrite GetAlerts_run.
  destruct (negb (db_fails env (stmts w)) &&
            forallb Alert_scans (alerts_page c (db w))); [|reflexivity].
  unfold c_JSON. cbn [Written Payload fst]. rewrite lookup_insert_eq.
  reflexivity.
Qed.

Lemma Forall_Limit_Offset {A} (P : A -> Prop) limit offset (rows : list A) :
  Forall P rows -> Forall P (Limit limit (Offset offset rows)).
Proof.
  intros H. unfold Limit, Offset.
  destruct (0 <=? limit), (0 <? offset); auto using Forall_take, Forall_drop.
Qed.



(** [strconv.Atoi] with the error dropped: plain numbers, signs, syntax
    errors (0), and values out of range (the nearest bound, also when
    the overflowing digits are followed by something that is no digit). *)
Example Atoi_values :
  Atoi "50" = 50 /\ Atoi "+7" = 7 /\ Atoi "-3" = -3 /\
  Atoi "" = 0 /\ Atoi "-" = 0 /\ Atoi "12a" = 0 /\ Atoi "1_000" = 0 /\
  Atoi "9223372036854775807" = maxInt64 /\
  Atoi "9223372036854775808" = maxInt64 /\
  Atoi "-9223372036854775808" = minInt64 /\
  Atoi "-9223372036854775809" = minInt64 /\
  Atoi "99999999999999999999" = maxInt64 /\
  Atoi "99999999999999999999x" = maxInt64 /\
  Atoi "-99999999999999999999x" = minInt64 /\
  Atoi "1234567890123456789x" = 0.
Proof. vm_compute. repeat split. Qed.

Lemma wrap64_small z : minInt64 <= z <= maxInt64 -> wrap64 z = z.
Proof.
  unfold wrap64, minInt64, maxInt64.
  change (2 ^ 63) with 9223372036854775808.
  change (2 ^ 64) with 18446744073709551616.
  intros H. rewrite Z.mod_small by lia. lia.
Qed.

Lemma Alert_scans_spec a :
  Alert_scans a = true <-> Alert.Entities a = ∅ /\ Alert.Evidence a = [].
Proof.
  unfold Alert_scans, is_nil. rewrite andb_true_iff, bool_decide_eq_true.
  destruct (Alert.Evidence a); intuition discriminate.
Qed.

Lemma alerts_page_window c d p l :
  Atoi (DefaultQuery c "page" "1") = p ->
  Atoi (DefaultQuery c "limit" "50") = l ->
  1 <= p -> 1 <= l -> (p - 1) * l <= maxInt64 ->
  alerts_page c d =
  take (Z.to_nat l)
    (drop (Z.to_nat ((p - 1) * l))
       (Order_created_at_DESC (List.filter (alerts_filters c) (alerts d)))).
Proof.
  intros Hp Hl Hp1 Hl1 Hfit. unfold alerts_page. rewrite Hp, Hl.
  assert (Hsub : int_sub p 1 = p - 1).
  { unfold int_sub. apply wrap64_small. unfold minInt64, maxInt64 in *.
    change (2 ^ 63) with 9223372036854775808 in *. nia. }
  assert (Hmul : int_mul (p - 1) l = (p - 1) * l).
  { unfold int_mul. apply wrap64_small. unfold minInt64, maxInt64 in *.
    change (2 ^ 63) with 9223372036854775808 in *. nia. }
  rewrite Hsub, Hmul. unfold Limit, Offset.
  assert (Hlim : (0 <=? l) = true) by (apply Z.leb_le; lia).
  rewrite Hlim.
  destruct (0 <? (p - 1) * l) eqn:Hoff; [reflexivity|].
  apply Z.ltb_ge in Hoff.
  replace ((p - 1) * l) with 0 by nia. reflexivity.
Qed.

(** X10: pagination of [GET /v1/alerts]. When page p >= 1 and limit
    l >= 1 (and (p-1)*l fits the 64-bit int), the SELECT asks for the rows
    number (p-1)*l to p*l - 1 of the filtered table, newest first. When
    the statement succeeds and these rows can be read back (their
    entities and evidence columns are NULL), the answer is 200 with
    exactly these rows and echoes p and l; when one of them cannot, the
    answer is 500. *)
Theorem GetAlerts_page_window env c w p l :
  Atoi (DefaultQuery c "page" "1") = p ->
  Atoi (DefaultQuery c "limit" "50") = l ->
  1 <= p -> 1 <= l -> (p - 1) * l <= maxInt64 ->
  db_fails env (stmts w) = false ->
  let page :=
    take (Z.to_nat l)
      (drop (Z.to_nat ((p - 1) * l))
         (Order_created_at_DESC
            (List.filter (alerts_filters c) (alerts (db w))))) in
  (Forall (fun a => Alert.Entities a = ∅ /\ Alert.Evidence a = []) page ->
   Written (eval (GetAlerts env c) w) =
   Some (mkResponse StatusOK
           {[ "alerts" := JAlerts page; "page" := JNum p; "limit" := JNum l ]})) /\
  (~ Forall (fun a => Alert.Entities a = ∅ /\ Alert.Evidence a = []) page ->
   Written (eval (GetAlerts env c) w) =
   Some (error_response StatusInternalServerError "Failed to query alerts")).
Proof.
  intros Hp Hl Hp1 Hl1 Hfit Hok. cbn zeta.
  unfold eval. rewrite GetAlerts_run, Hok.
  rewrite (alerts_page_window c (db w) p l Hp Hl Hp1 Hl1 Hfit), Hp, Hl.
  cbn [negb andb].
  set (page := take _ _).
  destruct (forallb Alert_scans page) eqn:Hscan.
  - split; [intros _; reflexivity|].
    intros Hnot. exfalso. apply Hnot.
    apply List.Forall_forall. intros a Ha.
    rewrite forallb_forall in Hscan. apply Alert_scans_spec, Hscan, Ha.
  - split; [|intros _; reflexivity].
    intros Hall. exfalso.
    assert (Htrue : forallb Alert_scans page = true).
    { apply forallb_forall. intros a Ha. apply Alert_scans_spec.
      rewrite List.Forall_forall in Hall. apply Hall, Ha. }
    rewrite Htrue in Hscan. discriminate Hscan.
Qed.

Lemma GetAlerts_page_window_witness :
  map Alert.TenantID
    (returned_alerts
       (eval (GetAlerts env_ok
                (request ∅ {[ "page" := "2"; "limit" := "1" ]} "")) two_tenants))
  = ["t1"].
Proof.
  pose proof (GetAlerts_page_window env_ok
             (request ∅ {[ "page" := "2"; "limit" := "1" ]} "") two_tenants 2 1) as H.
  assert (H1 : Atoi (DefaultQuery (request ∅ {[ "page" := "2"; "limit" := "1" ]} "") "page" "1") = 2)
    by (vm_compute; reflexivity).
  assert (H2 : Atoi (DefaultQuery (request ∅ {[ "page" := "2"; "limit" := "1" ]} "") "limit" "50") = 1)
    by (vm_compute; reflexivity).
  specialize (H H1 H2 ltac:(lia) ltac:(lia) ltac:(vm_compute; discriminate) eq_refl).
  cbn zeta in H. destruct H as [H _].
  assert (Hpage : take (Z.to_nat 1)
            (drop (Z.to_nat ((2 - 1) * 1))
               (Order_created_at_DESC
                  (List.filter
                     (alerts_filters (request ∅ {[ "page" := "2"; "limit" := "1" ]} ""))
                     (alerts (db two_tenants))))) = [alert_t1])
    by (vm_compute; reflexivity).
  rewrite Hpage in H.
  specialize (H ltac:(repeat constructor)).
  unfold returned_alerts. rewrite H.
  vm_compute. reflexivity.
Defined.

(** X11: the two query handlers only read: tables, sequences, pending
    passes and clock are as they were, for every request.
    [GET /v1/events] sends no statement at all and always answers 500
    "Failed to query events", with one error line in the log.
    [GET /v1/alerts] sends exactly one statement; it answers 200, and
    logs nothing, exactly when the statement succeeds and every row of
    the requested page can be read back, and answers 500
    "Failed to query alerts", with one error line, otherwise. *)
Theorem query_handlers_only_read env c w :
  let we := exec (GetEvents env c) w in
  let wa := exec (GetAlerts env c) w in
  let readable :=
    negb (db_fails env (stmts w)) && forallb Alert_scans (alerts_page c (db w)) in
  we = mkWorld (db w) (logs w ++ [LogError "Failed to query events"])
         (spawned w) (ticks w) (stmts w) /\
  Written (eval (GetEvents env c) w) =
    Some (error_response StatusInternalServerError "Failed to query events") /\
  wa = mkWorld (db w)
         (if readable then logs w
          else logs w ++ [LogError "Failed to query alerts"])
         (spawned w) (ticks w) (S (stmts w)) /\
  (if readable
   then status_of (eval (GetAlerts env c) w) = Some StatusOK
   else Written (eval (GetAlerts env c) w) =
          Some (error_response StatusInternalServerError "Failed to query alerts")).
Proof.
  cbn zeta. unfold eval, exec, status_of.
  rewrite GetEvents_run, GetAlerts_run.
  destruct (negb (db_fails env (stmts w)) &&
            forallb Alert_scans (alerts_page c (db w))); repeat split.
Qed.

(** X25: an alert raised by the detection pass cannot be listed. The
    pass stores entities and evidence with every alert, and
    [GET /v1/alerts] cannot read such a row back: a request whose page
    holds an alert of a detection pass is answered 500
    "Failed to query alerts", for every store and every later state of
    the table that still holds the row on that page. *)
Theorem detected_alerts_cannot_be_listed env env' batch w c w' a :
  In a (new_alerts env batch w) ->
  In a (alerts_page c (db w')) ->
  Written (eval (GetAlerts env' c) w') =
    Some (error_response StatusInternalServerError "Failed to query alerts") /\
  returned_alerts (eval (GetAlerts env' c) w') = [].
Proof.
  intros Hnew Hpage.
  assert (Hscan : Alert_scans a = false).
  { pose proof (new_alerts_origin env batch w) as Horigin.
    rewrite List.Forall_forall in Horigin.
    destruct (Horigin a Hnew) as [e [_ [_ [(_ & _ & Hev & _) _]]]].
    unfold Alert_scans. rewrite Hev. apply andb_false_r. }
  assert (Hall : forallb Alert_scans (alerts_page c (db w')) = false).
  { destruct (forallb Alert_scans (alerts_page c (db w'))) eqn:Hall; [|reflexivity].
    rewrite forallb_forall in Hall. rewrite (Hall a Hpage) in Hscan.
    discriminate Hscan. }
  rewrite GetAlerts_returned. unfold eval. rewrite GetAlerts_run.
  rewrite Hall, andb_false_r. split; reflexivity.
Qed.

Lemma detected_alerts_cannot_be_listed_witness :
  status_of
    (eval (GetAlerts env_ok (request ∅ ∅ ""))
       (exec (processEventsForAlerts env_ok [event_wget]) world0))
  = Some StatusInternalServerError.
Proof.
  pose proof (detected_alerts_cannot_be_listed env_ok env_ok [event_wget] world0
                (request ∅ ∅ "")
                (exec (processEventsForAlerts env_ok [event_wget]) world0)
                (alert_of 1 0 event_wget suspicious_title "high")) as H.
  assert (Hnew : In (alert_of 1 0 event_wget suspicious_title "high")
                   (new_alerts env_ok [event_wget] world0))
    by (left; vm_compute; reflexivity).
  assert (Hpage : In (alert_of 1 0 event_wget suspicious_title "high")
                    (alerts_page (request ∅ ∅ "")
                       (db (exec (processEventsForAlerts env_ok [event_wget])
                              world0))))
    by (left; vm_compute; reflexivity).
  destruct (H Hnew Hpage) as [Hresp _].
  unfold status_of. rewrite Hresp. reflexivity.
Defined.






Lemma insert_desc_In a b l : In b (insert_desc a l) <-> b = a \/ In b l.
Proof.
  induction l as [|x l IH]; cbn.
  - intuition.
  - destruct (Alert.CreatedAt x <=? Alert.CreatedAt a); cbn; [intuition|].
    rewrite IH. intuition.
Qed.

Lemma Order_created_at_DESC_In b l : In b (Order_created_at_DESC l) <-> In b l.
Proof.
  unfold Order_created_at_DESC. induction l as [|x l IH]; cbn; [reflexivity|].
  rewrite insert_desc_In, IH. intuition.
Qed.

Lemma insert_desc_sorted a l : newest_first l -> newest_first (insert_desc a l).
Proof.
  unfold newest_first. induction l as [|x l IH]; intros Hs; cbn.
  - repeat constructor.
  - apply StronglySorted_inv in Hs. destruct Hs as [Hl Hx].
    destruct (Alert.CreatedAt x <=? Alert.CreatedAt a) eqn:Hcmp.
    + apply Z.leb_le in Hcmp. constructor.
      * constructor; assumption.
      * constructor; [exact Hcmp|].
        eapply Forall_impl; [exact Hx|]. cbn. intros b Hb. lia.
    + apply Z.leb_gt in Hcmp. constructor; [apply IH; exact Hl|].
      apply List.Forall_forall. intros b Hb. apply insert_desc_In in Hb.
      destruct Hb as [->|Hb]; [lia|].
      rewrite List.Forall_forall in Hx. apply Hx. exact Hb.
Qed.

Lemma Order_created_at_DESC_sorted l : newest_first (Order_created_at_DESC l).
Proof.
  unfold Order_created_at_DESC. induction l as [|x l IH]; cbn.
  - constructor.
  - apply insert_desc_sorted. exact IH.
Qed.

Lemma newest_first_Limit_Offset limit offset l :
  newest_first l -> newest_first (Limit limit (Offset offset l)).
Proof.
  unfold newest_first. intros Hs.
  assert (Hoff : StronglySorted (fun a b => Alert.CreatedAt b <= Alert.CreatedAt a)
                   (Offset offset l)).
  { unfold Offset. destruct (0 <? offset); [|exact Hs].
    rewrite <- (take_drop (Z.to_nat offset) l) in Hs.
    apply StronglySorted_app_1_r in Hs. exact Hs. }
  unfold Limit. destruct (0 <=? limit); [|exact Hoff].
  rewrite <- (take_drop (Z.to_nat limit) (Offset offset l)) in Hoff.
  apply StronglySorted_app_1_l in Hoff. exact Hoff.
Qed.

(** X13: [GET /v1/alerts] lists alerts newest first: in every answer the
    creation stamps never increase from one alert to the next, on every
    page. *)
Theorem GetAlerts_newest_first env c w :
  newest_first (returned_alerts (eval (GetAlerts env c) w)).
Proof.
  rewrite GetAlerts_returned.
  destruct (negb (db_fails env (stmts w)) &&
            forallb Alert_scans (alerts_page c (db w))); [|constructor].
  apply newest_first_Limit_Offset, Order_created_at_DESC_sorted.
Qed.

Lemma alerts_filters_sound c a :
  alerts_filters c a = true ->
  (Query c "tenant_id" <> "" -> Alert.TenantID a = Query c "tenant_id") /\
  (Query c "status" <> "" -> Alert.Status a = Query c "status") /\
  (Query c "severity" <> "" -> Alert.Severity a = Query c "severity").
Proof.
  unfold alerts_filters. cbn zeta. intros Ha.
  destruct (nonempty (Query c "tenant_id")) eqn:H1;
  destruct (nonempty (Query c "status")) eqn:H2;
  destruct (nonempty (Query c "severity")) eqn:H3;
  unfold Where in Ha; cbn [andb] in Ha; rewrite ?andb_true_iff in Ha;
  (split; [|split]);
  intros Hne; (apply String.eqb_eq; tauto)
              || (exfalso; apply Hne, nonempty_false; assumption).
Qed.

(** X14: every alert [GET /v1/alerts] returns is a row of the alert
    table and satisfies each filter the query string gives (tenant_id,
    status, severity, by equality). *)
Theorem GetAlerts_returns_matching_rows env c w :
  Forall (fun a =>
            In a (alerts (db w)) /\
            (Query c "tenant_id" <> "" -> Alert.TenantID a = Query c "tenant_id") /\
            (Query c "status" <> "" -> Alert.Status a = Query c "status") /\
            (Query c "severity" <> "" -> Alert.Severity a = Query c "severity"))
         (returned_alerts (eval (GetAlerts env c) w)).
Proof.
  rewrite GetAlerts_returned.
  destruct (negb (db_fails env (stmts w)) &&
            forallb Alert_scans (alerts_page c (db w))); [|constructor].
  apply Forall_Limit_Offset. apply List.Forall_forall. intros a Ha.
  apply Order_created_at_DESC_In, List.filter_In in Ha. destruct Ha as [Hin Ha].
  split; [exact Hin|]. apply alerts_filters_sound. exact Ha.
Qed.

(* ===================================================================== *)
(** ** More on the middleware *)
(* ===================================================================== *)

Lemma AuthMiddleware_cases env jwtSecret c w :
  (token_accepted env jwtSecret c ->
   AuthMiddleware env jwtSecret c w =
   (let claims := parsed_claims (ParseWithClaims env (presented_token c) jwtSecret) in
    Set_ "role" (Claims.Role claims)
      (Set_ "tenant_id" (Claims.TenantID claims)
         (Set_ "user_id" (Claims.UserID claims) c)), w)) /\
  (~ token_accepted env jwtSecret c ->
   exists msg,
     AuthMiddleware env jwtSecret c w =
     (Abort (c_JSON StatusUnauthorized {[ "error" := JStr msg ]} c), w)).
Proof.
  unfold token_accepted, presented_token, AuthMiddleware, ret. cbn zeta.
  destruct (String.eqb (GetHeader c "Authorization") "") eqn:Hempty.
  { apply String.eqb_eq in Hempty. split.
    - intros [Hpre _]. rewrite Hempty in Hpre. discriminate Hpre.
    - intros _. eexists. reflexivity. }
  rewrite TrimPrefix_same.
  destruct (HasPrefix (GetHeader c "Authorization") "Bearer ") eqn:Hpre; cbn [negb].
  2:{ split; [intros [H _]; discriminate H | intros _; eexists; reflexivity]. }
  destruct (parse_err (ParseWithClaims env _ jwtSecret)) as [err|] eqn:Herr.
  { split; [intros (_ & H & _); discriminate H | intros _; eexists; reflexivity]. }
  destruct (token_Valid (ParseWithClaims env _ jwtSecret)) eqn:Hvalid.
  - split; [reflexivity | intros H; exfalso; apply H; repeat split].
  - split; [intros (_ & _ & H); discriminate H | intros _; eexists; reflexivity].
Qed.

Lemma token_accepted_dec env jwtSecret c :
  token_accepted env jwtSecret c \/ ~ token_accepted env jwtSecret c.
Proof.
  unfold token_accepted.
  destruct (HasPrefix (GetHeader c "Authorization") "Bearer ");
    [|right; intros [H _]; discriminate H].
  destruct (parse_err (ParseWithClaims env (presented_token c) jwtSecret));
    [right; intros (_ & H & _); discriminate H|].
  destruct (token_Valid (ParseWithClaims env (presented_token c) jwtSecret));
    [left; repeat split | right; intros (_ & _ & H); discriminate H].
Qed.

(** X15: the auth gate lets a request through exactly when the header
    starts with "Bearer " and the JWT library accepts the token. It then
    stores the token's user id, tenant id and role under the context keys
    user_id, tenant_id and role, keeps every other key, writes no
    response and changes nothing in the server state. *)
Theorem auth_gate_passes_accepted_tokens_only env jwtSecret c w :
  Aborted c = false ->
  let c' := eval (AuthMiddleware env jwtSecret c) w in
  let claims := parsed_claims (ParseWithClaims env (presented_token c) jwtSecret) in
  (Aborted c' = false <-> token_accepted env jwtSecret c) /\
  (token_accepted env jwtSecret c ->
   Get c' "user_id" = Some (Claims.UserID claims) /\
   Get c' "tenant_id" = Some (Claims.TenantID claims) /\
   Get c' "role" = Some (Claims.Role claims) /\
   (forall k, k <> "user_id" -> k <> "tenant_id" -> k <> "role" ->
              Get c' k = Get c k) /\
   Written c' = Written c /\
   exec (AuthMiddleware env jwtSecret c) w = w).
Proof.
  intros Hlive. cbn zeta. unfold eval, exec.
  destruct (AuthMiddleware_cases env jwtSecret c w) as [Hyes Hno].
  split.
  - split.
    + intros Hpass.
      destruct (token_accepted_dec env jwtSecret c) as [H|H]; [exact H|].
      destruct (Hno H) as [msg Hmsg]. rewrite Hmsg in Hpass. discriminate Hpass.
    + intros H. rewrite (Hyes H). exact Hlive.
  - intros H. rewrite (Hyes H). cbn zeta. unfold Get, Set_.
    cbn [fst snd Keys Written].
    split_and!; try reflexivity.
    + rewrite lookup_insert_ne by discriminate.
      rewrite lookup_insert_ne by discriminate. apply lookup_insert_eq.
    + rewrite lookup_insert_ne by discriminate. apply lookup_insert_eq.
    + apply lookup_insert_eq.
    + intros k H1 H2 H3. rewrite !lookup_insert_ne by congruence. reflexivity.
Qed.

Lemma auth_gate_passes_accepted_tokens_only_witness :
  Get (eval (AuthMiddleware env_auth "secret" (request (bearer "tok-t1") ∅ ""))
         world0) "tenant_id" = Some "t1".
Proof.
  exact (proj1 (proj2 (proj2 (auth_gate_passes_accepted_tokens_only
                                env_auth "secret"
                                (request (bearer "tok-t1") ∅ "") world0 eq_refl)
                         (conj eq_refl (conj eq_refl eq_refl))))).
Defined.

(** X16: a request the gate does not accept never reaches what comes
    after the gate. Whatever handlers follow in the chain, the outcome is
    the gate's own 401 answer and the server state is untouched (no
    statement sent, nothing logged). This covers every rejection,
    including JWT errors other than a bad signature or expiry and a token
    parsed without error but not marked valid. *)
Theorem rejected_requests_stop_at_the_gate env jwtSecret rest c w :
  ~ token_accepted env jwtSecret c ->
  run_chain (AuthMiddleware env jwtSecret :: rest) c w =
    AuthMiddleware env jwtSecret c w /\
  status_of (eval (run_chain (AuthMiddleware env jwtSecret :: rest) c) w) =
    Some StatusUnauthorized /\
  exec (run_chain (AuthMiddleware env jwtSecret :: rest) c) w = w.
Proof.
  intros Hno.
  destruct (proj2 (AuthMiddleware_cases env jwtSecret c w) Hno) as [msg Hmsg].
  assert (Hrun : run_chain (AuthMiddleware env jwtSecret :: rest) c w =
                 AuthMiddleware env jwtSecret c w).
  { cbn [run_chain]. unfold bind. rewrite Hmsg. reflexivity. }
  unfold eval, exec. rewrite Hrun, Hmsg. repeat split.
Qed.

Lemma rejected_requests_stop_at_the_gate_witness :
  exec (run_chain (route_GET_events env_auth "secret")
          (request (bearer "tok-unknown") ∅ "")) two_tenants = two_tenants.
Proof.
  apply (rejected_requests_stop_at_the_gate env_auth "secret").
  intros (_ & H & _). vm_compute in H. discriminate H.
Defined.

(** X17: the tenant middleware rejects a request that carries no
    tenant_id key with 400 "Tenant ID required"; placed after the auth
    gate it never rejects an accepted request, and copies the token's
    tenant id to the key tenant_context. *)
Theorem tenant_middleware_after_the_gate env jwtSecret c w :
  Aborted c = false ->
  token_accepted env jwtSecret c ->
  let c' := eval (run_chain [AuthMiddleware env jwtSecret; TenantMiddleware] c) w in
  let tenant :=
    Claims.TenantID
      (parsed_claims (ParseWithClaims env (presented_token c) jwtSecret)) in
  Aborted c' = false /\
  Written c' = Written c /\
  Get c' "tenant_context" = Some tenant /\
  Get c' "tenant_id" = Some tenant /\
  exec (run_chain [AuthMiddleware env jwtSecret; TenantMiddleware] c) w = w /\
  (forall c0 w0,
     Get c0 "tenant_id" = None ->
     TenantMiddleware c0 w0 =
     (Abort (c_JSON StatusBadRequest {[ "error" := JStr "Tenant ID required" ]} c0),
      w0)).
Proof.
  intros Hlive Hyes. cbn zeta.
  set (claims := parsed_claims _).
  set (c1 := Set_ "role" (Claims.Role claims)
               (Set_ "tenant_id" (Claims.TenantID claims)
                  (Set_ "user_id" (Claims.UserID claims) c))).
  assert (Htenant : Get c1 "tenant_id" = Some (Claims.TenantID claims)).
  { unfold Get, c1, Set_. cbn [Keys].
    rewrite lookup_insert_ne by discriminate. apply lookup_insert_eq. }
  assert (Hchain :
    run_chain [AuthMiddleware env jwtSecret; TenantMiddleware] c w =
    (Set_ "tenant_context" (Claims.TenantID claims) c1, w)).
  { cbn [run_chain]. unfold bind.
    rewrite (proj1 (AuthMiddleware_cases env jwtSecret c w) Hyes). cbn zeta.
    fold claims. fold c1.
    assert (Hc1 : Aborted c1 = false) by exact Hlive. rewrite Hc1.
    unfold TenantMiddleware. rewrite Htenant. unfold ret.
    assert (Hc2 : Aborted (Set_ "tenant_context" (Claims.TenantID claims) c1) = false)
      by exact Hlive.
    rewrite Hc2. reflexivity. }
  unfold eval, exec. rewrite Hchain. cbn [fst snd].
  split_and!.
  - exact Hlive.
  - reflexivity.
  - unfold Get, Set_. cbn [Keys]. apply lookup_insert_eq.
  - unfold Get in *. unfold Set_ at 1. cbn [Keys].
    rewrite lookup_insert_ne by discriminate. exact Htenant.
  - reflexivity.
  - intros c0 w0 Hnone. unfold TenantMiddleware. rewrite Hnone. reflexivity.
Qed.

Lemma tenant_middleware_after_the_gate_witness :
  Get (eval (run_chain [AuthMiddleware env_auth "secret"; TenantMiddleware]
               (request (bearer "tok-t2") ∅ "")) world0) "tenant_context"
  = Some "t2".
Proof.
  exact (proj1 (proj2 (proj2 (tenant_middleware_after_the_gate
                                env_auth "secret"
                                (request (bearer "tok-t2") ∅ "") world0 eq_refl
                                (conj eq_refl (conj eq_refl eq_refl)))))).
Defined.

(* ===================================================================== *)
(** ** More on the placeholder routes *)
(* ===================================================================== *)

(** X18: the placeholder [POST /v1/events] registered in main.go stores
    nothing. A body that binds is answered 200 {status: "ok", count: N}
    after one "Received event" line per event, in batch order; a body
    that does not bind is answered 400 with the decoder's own error text
    as the message. Tables, pending passes and counters are the same
    before and after in both cases. *)
Theorem placeholder_ingestion_only_logs {E} (bind_json : string -> list E + string)
    (show : E -> string) c w :
  main_POST_events bind_json show c w =
  match bind_json (Body c) with
  | inl batch =>
      (c_JSON StatusOK
         {[ "status" := JStr "ok"; "count" := JNum (Z.of_nat (length batch)) ]} c,
       mkWorld (db w)
         (logs w ++ map (fun e => LogPrintf "Received event: %+v" (show e)) batch)
         (spawned w) (ticks w) (stmts w))
  | inr err =>
      (c_JSON StatusBadRequest {[ "error" := JStr err ]} c, w)
  end.
Proof.
  unfold main_POST_events.
  destruct (bind_json (Body c)) as [batch|err]; [|reflexivity].
  unfold bind. rewrite print_events_run. reflexivity.
Qed.

(* ===================================================================== *)
(** ** Rules, the alert action and the remaining middleware *)
(* ===================================================================== *)

Lemma cors_headers_set (x : Exchange) :
  has_cors_headers
    (c_Header "Access-Control-Allow-Headers" "Origin, Content-Type, Authorization"
       (c_Header "Access-Control-Allow-Methods" "GET, POST, PUT, DELETE, OPTIONS"
          (c_Header "Access-Control-Allow-Origin" "*" x))).
Proof.
  unfold has_cors_headers, c_Header. cbn [ResponseHeader]. split_and!.
  - rewrite lookup_insert_ne by discriminate.
    rewrite lookup_insert_ne by discriminate. apply lookup_insert_eq.
  - rewrite lookup_insert_ne by discriminate. apply lookup_insert_eq.
  - apply lookup_insert_eq.
Qed.

(** X19: the CORS middleware answers every OPTIONS request itself: status
    204, no body, chain aborted, server state untouched, whatever
    handlers follow (so a preflight never reaches the auth gate or a
    handler). Any other request goes on to the rest of the chain, whose
    outcome is unchanged. In both cases the response carries the three
    Access-Control-Allow-* headers. *)
Theorem cors_answers_preflight_itself {C} (next : ExHandler C)
    (chain : list HandlerFunc) x (s : Server C) :
  (Method x = "OPTIONS" ->
   snd (CORSMiddleware next x s) = s /\
   StatusOnly (fst (CORSMiddleware next x s)) = Some StatusNoContent /\
   Aborted (Ctx (fst (CORSMiddleware next x s))) = true /\
   Written (Ctx (fst (CORSMiddleware next x s))) = Written (Ctx x) /\
   has_cors_headers (fst (CORSMiddleware next x s))) /\
  (Method x <> "OPTIONS" ->
   let r := CORSMiddleware (lift_handler (run_chain chain)) x s in
   Ctx (fst r) = eval (run_chain chain (Ctx x)) (world s) /\
   world (snd r) = exec (run_chain chain (Ctx x)) (world s) /\
   StatusOnly (fst r) = StatusOnly x /\
   has_cors_headers (fst r)).
Proof.
  split; intros Hm.
  - unfold CORSMiddleware. cbn zeta. cbn [Method c_Header]. rewrite Hm.
    cbn [String.eqb Ascii.eqb Bool.eqb andb fst snd].
    split_and!; try reflexivity.
    unfold has_cors_headers, AbortWithStatus. cbn [ResponseHeader].
    apply (cors_headers_set x).
  - cbn zeta. unfold CORSMiddleware. cbn zeta. cbn [Method c_Header].
    apply String.eqb_neq in Hm. rewrite Hm.
    unfold lift_handler, eval, exec. cbn [Ctx c_Header world].
    destruct (run_chain chain (Ctx x) (world s)) as [c' w'].
    cbn [fst snd Ctx with_Ctx world StatusOnly].
    split_and!; try reflexivity.
    unfold has_cors_headers, with_Ctx. cbn [ResponseHeader].
    apply (cors_headers_set x).
Qed.

(** X20: the logging middleware brackets the rest of the chain with two
    lines that carry the same fresh request id: "Request started" (with
    method, path and peer address) before, and "Request completed" after,
    with the status of the response the handler wrote (200 when it wrote
    none) and the clock time that passed. The handler sees the request
    id under the context key request_id. *)
Theorem logging_brackets_the_handler {C} env (ext : Ext C) (h : HandlerFunc) x s :
  let requestID := New_uuid ext (uuids s) in
  let c1 := Set_ "request_id" requestID (Ctx x) in
  let w1 := mkWorld (db (world s)) (logs (world s)) (spawned (world s))
              (S (ticks (world s))) (stmts (world s)) in
  let c2 := eval (h c1) w1 in
  let w2 := exec (h c1) w1 in
  let r := LoggingMiddleware env ext (lift_handler h) x s in
  Ctx (fst r) = c2 /\
  db (world (snd r)) = db w2 /\
  uuids (snd r) = S (uuids s) /\
  journal (snd r) =
    journal s ++
    [mkEntry InfoLevel "Request started"
       {[ "request_id" := JStr requestID; "method" := JStr (Method x);
          "path" := JStr (Path x); "ip" := JStr (ClientIP x) ]};
     mkEntry InfoLevel "Request completed"
       {[ "request_id" := JStr requestID;
          "status" := JNum (match Written c2 with
                            | Some resp => Status resp
                            | None => default StatusOK (StatusOnly x)
                            end);
          "latency" := JNum (Now env (ticks w2) - Now env (ticks (world s))) ]}].
Proof.
  cbn zeta. unfold LoggingMiddleware, lift_M, uuid_New, lift_handler, timeNow,
    write_entry, eval, exec, Writer_Status.
  cbn [world rules journal uuids Ctx with_Ctx Method Path ClientIP StatusOnly].
  destruct (h _ _) as [c2 w2].
  cbn [world rules journal uuids Ctx with_Ctx Method Path ClientIP StatusOnly
       fst snd db ticks].
  rewrite <- app_assoc. split_and!; reflexivity.
Qed.

Lemma First_run {C} env (ext : Ext C) alertID (s : Server C) :
  First env ext alertID s =
  (if db_fails env (stmts (world s)) then None
   else match First_alert ext alertID (alerts (db (world s))) with
        | Some alert => if Alert_scans alert then Some alert else None
        | None => None
        end,
   mkServer
     (mkWorld (db (world s)) (logs (world s)) (spawned (world s))
        (ticks (world s)) (S (stmts (world s))))
     (rules s) (journal s) (uuids s)).
Proof.
  unfold First. change (schema_builds Alert_schema) with true. cbn iota.
  unfold lift_M, statement. cbn [world rules journal uuids db].
  destruct (db_fails env (stmts (world s))); [reflexivity|].
  destruct (First_alert ext alertID (alerts (db (world s)))) as [alert|];
    [|reflexivity].
  destruct (Alert_scans alert); reflexivity.
Qed.

(** X21: executing an alert action changes no table: alerts, events and
    rules are the same afterwards, whatever the request. A request whose
    body does not decode, or whose action is empty, gets 400 before any
    statement is sent; an answer of 200 names an alert the lookup found,
    echoes the action, and leaves one "Executing alert action" line as
    its only trace. *)
Theorem alert_action_changes_no_table {C} env (ext : Ext C) x s :
  let r := ExecuteAlertAction env ext x s in
  db (world (snd r)) = db (world s) /\
  rules (snd r) = rules s /\
  (decode_action ext (Body (Ctx x)) = None \/
   (exists params, decode_action ext (Body (Ctx x)) = Some ("", params)) ->
   status_of (Ctx (fst r)) = Some StatusBadRequest /\ snd r = s) /\
  (status_of (Ctx (fst r)) = Some StatusOK ->
   exists alert action params,
     decode_action ext (Body (Ctx x)) = Some (action, params) /\
     action <> "" /\
     First_alert ext (Param x "id") (alerts (db (world s))) = Some alert /\
     Payload <$> Written (Ctx (fst r)) =
       Some {[ "status" := JStr "action_executed";
               "alert_id" := JNum (Z.of_N (Alert.ID alert));
               "action" := JStr action ]} /\
     journal (snd r) =
       journal s ++
       [mkEntry InfoLevel "Executing alert action"
          {[ "alert_id" := JNum (Z.of_N (Alert.ID alert));
             "action" := JStr action ]}]).
Proof.
  cbn zeta. unfold ExecuteAlertAction, bind_action.
  destruct (decode_action ext (Body (Ctx x))) as [[action params]|] eqn:Hdec.
  2:{ unfold status_of.
      cbn [fst snd Ctx with_Ctx Written c_JSON fmap option_fmap option_map Status].
      split_and!; try reflexivity.
      - intros _. split; reflexivity.
      - intros H. discriminate H. }
  destruct (String.eqb action "") eqn:Hact.
  { unfold status_of.
    cbn [fst snd Ctx with_Ctx Written c_JSON fmap option_fmap option_map Status].
    split_and!; try reflexivity.
    - intros _. split; reflexivity.
    - intros H. discriminate H. }
  apply String.eqb_neq in Hact.
  assert (Hnot400 : Some (action, params) = None \/
                    (exists p, Some (action, params) = Some ("", p)) -> False).
  { intros [H|[p H]]; [discriminate H|]. inversion H. congruence. }
  rewrite First_run.
  assert (Hmiss : forall s1 : Server C,
            db (world s1) = db (world s) -> rules s1 = rules s ->
            let r := (with_Ctx (c_JSON StatusNotFound
                                  {[ "error" := JStr "Alert not found" ]} (Ctx x)) x,
                      s1) in
            db (world (snd r)) = db (world s) /\
            rules (snd r) = rules s /\
            (Some (action, params) = None \/
             (exists p, Some (action, params) = Some ("", p)) ->
             status_of (Ctx (fst r)) = Some StatusBadRequest /\ snd r = s) /\
            (status_of (Ctx (fst r)) = Some StatusOK -> False)).
  { intros s1 Hdb Hrules. cbn zeta. cbn [fst snd]. split_and!.
    - exact Hdb.
    - exact Hrules.
    - intros H. destruct (Hnot400 H).
    - intros H. discriminate H. }
  set (s1 := mkServer _ (rules s) (journal s) (uuids s)).
  assert (Hdb1 : db (world s1) = db (world s)) by reflexivity.
  assert (Hrules1 : rules s1 = rules s) by reflexivity.
  specialize (Hmiss s1 Hdb1 Hrules1). cbn zeta in Hmiss.
  destruct Hmiss as (M1 & M2 & M3 & M4).
  destruct (db_fails env (stmts (world s))).
  { split_and!; [exact M1 | exact M2 | exact M3 |].
    intros H. destruct (M4 H). }
  destruct (First_alert ext (Param x "id") (alerts (db (world s)))) as [alert|]
    eqn:Hfirst.
  2:{ split_and!; [exact M1 | exact M2 | exact M3 |].
      intros H. destruct (M4 H). }
  destruct (Alert_scans alert).
  2:{ split_and!; [exact M1 | exact M2 | exact M3 |].
      intros H. destruct (M4 H). }
  unfold write_entry, status_of.
  cbn [fst snd Ctx with_Ctx Written c_JSON fmap option_fmap option_map Status
       world rules journal db Payload].
  split_and!; try reflexivity.
  - intros H. destruct (Hnot400 H).
  - intros _. exists alert, action, params. split_and!; try reflexivity.
    exact Hact.
Qed.

Lemma CreateRule_run {C} env (ext : Ext C) c s rule :
  decode_rule ext (Body c) = Some rule ->
  CreateRule env ext c s =
  let id := New_uuid ext (uuids s) in
  let stamped_rule :=
    Rule.set_UpdatedAt (Now env (S (ticks (world s))))
      (Rule.set_CreatedAt (Now env (ticks (world s))) (Rule.set_ID id rule)) in
  let stored :=
    if Rule.Enabled rule then stamped_rule
    else Rule.set_Enabled true stamped_rule in
  let w' := mkWorld (db (world s)) (logs (world s)) (spawned (world s))
              (S (S (ticks (world s)))) (S (stmts (world s))) in
  if db_fails env (stmts (world s)) ||
     existsb (String.eqb id) (map Rule.ID (rules s))
  then (ReplyH StatusInternalServerError
               {[ "error" := JStr "Failed to create rule" ]},
        mkServer w' (rules s)
          (journal s ++ [mkEntry ErrorLevel "Failed to create rule" ∅])
          (S (uuids s)))
  else (ReplyRule StatusCreated stored,
        mkServer w' (rules s ++ [stored])
          (journal s ++ [mkEntry InfoLevel "Created new rule"
                           {[ "rule_id" := JStr id ]}])
          (S (uuids s))).
Proof.
  intros Hdec. unfold CreateRule. rewrite Hdec.
  destruct s as [[d lg sp tk st] rs jr uu].
  unfold uuid_New, lift_M, timeNow, Create_rule, statement, write_entry.
  cbn -[singletonM insert empty existsb String.eqb].
  destruct (db_fails env st || existsb (String.eqb (New_uuid ext uu)) (map Rule.ID rs));
    [reflexivity|].
  destruct (Rule.Enabled rule); reflexivity.
Qed.

(** X22: a rule created through [POST /v1/rules] gets its identity from
    the server: the id is the freshly drawn UUID (not among the ids
    already stored) and both stamps are clock readings, whatever id and
    stamps the body carried; it is stored, and answered with 201, enabled
    even when the body said enabled: false (column default of the field),
    with every other field as sent. *)
Theorem created_rule_gets_server_identity {C} env (ext : Ext C) c s rule :
  decode_rule ext (Body c) = Some rule ->
  reply_code (fst (CreateRule env ext c s)) = StatusCreated ->
  let stored :=
    Rule.mk (New_uuid ext (uuids s)) (Rule.Name rule) (Rule.Description rule)
      (Rule.Version rule) true (Rule.Severity rule) (Rule.Conditions rule)
      (Rule.Actions rule)
      (Now env (ticks (world s))) (Now env (S (ticks (world s)))) in
  fst (CreateRule env ext c s) = ReplyRule StatusCreated stored /\
  rules (snd (CreateRule env ext c s)) = rules s ++ [stored] /\
  ~ In (Rule.ID stored) (map Rule.ID (rules s)).
Proof.
  intros Hdec Hcode. cbn zeta.
  rewrite (CreateRule_run env ext c s rule Hdec) in *. cbn zeta in *.
  destruct (db_fails env (stmts (world s)) ||
            existsb (String.eqb (New_uuid ext (uuids s))) (map Rule.ID (rules s)))
    eqn:Hfail.
  { cbn in Hcode. discriminate Hcode. }
  apply orb_false_iff in Hfail. destruct Hfail as [_ Hfresh].
  cbn [fst snd rules Rule.ID].
  assert (Hstored :
    (if Rule.Enabled rule
     then Rule.set_UpdatedAt (Now env (S (ticks (world s))))
            (Rule.set_CreatedAt (Now env (ticks (world s)))
               (Rule.set_ID (New_uuid ext (uuids s)) rule))
     else Rule.set_Enabled true
            (Rule.set_UpdatedAt (Now env (S (ticks (world s))))
               (Rule.set_CreatedAt (Now env (ticks (world s)))
                  (Rule.set_ID (New_uuid ext (uuids s)) rule)))) =
    Rule.mk (New_uuid ext (uuids s)) (Rule.Name rule) (Rule.Description rule)
      (Rule.Version rule) true (Rule.Severity rule) (Rule.Conditions rule)
      (Rule.Actions rule)
      (Now env (ticks (world s))) (Now env (S (ticks (world s))))).
  { destruct rule as [i n d v en sv cd ac cr up]. destruct en; reflexivity. }
  rewrite Hstored. split_and!; try reflexivity.
  intros Hin. apply in_map_iff in Hin. destruct Hin as [r [Hid Hr]].
  assert (Hex : existsb (String.eqb (New_uuid ext (uuids s)))
                  (map Rule.ID (rules s)) = true).
  { apply existsb_exists. exists (Rule.ID r). split.
    - apply in_map. exact Hr.
    - rewrite Hid. apply String.eqb_refl. }
  rewrite Hex in Hfresh. discriminate Hfresh.
Qed.

Lemma created_rule_gets_server_identity_witness :
  (fun r => match r with
            | ReplyRule _ rule => Some (Rule.ID rule, Rule.Enabled rule)
            | _ => None
            end)
    (fst (CreateRule env_ok
            (sample_ext (Some (sample_rule "client-id" "r1" false)))
            (request ∅ ∅ "{...}") (server0 world0)))
  = Some ("uuid-0", true).
Proof.
  pose proof (created_rule_gets_server_identity env_ok
                (sample_ext (Some (sample_rule "client-id" "r1" false)))
                (request ∅ ∅ "{...}") (server0 world0)
                (sample_rule "client-id" "r1" false) eq_refl eq_refl) as H.
  cbn zeta in H. destruct H as [H _]. rewrite H. reflexivity.
Defined.

Lemma GetRules_run {C} env (s : Server C) :
  GetRules env s =
  let w' := mkWorld (db (world s)) (logs (world s)) (spawned (world s))
              (ticks (world s)) (S (stmts (world s))) in
  if negb (db_fails env (stmts (world s))) && forallb Rule_scans (rules s)
  then (ReplyRules StatusOK (rules s), mkServer w' (rules s) (journal s) (uuids s))
  else (ReplyH StatusInternalServerError
               {[ "error" := JStr "Failed to query rules" ]},
        mkServer w' (rules s)
          (journal s ++ [mkEntry ErrorLevel "Failed to query rules" ∅]) (uuids s)).
Proof.
  unfold GetRules, Find_rules. change (schema_builds Rule_schema) with true.
  cbn iota. unfold lift_M, statement, write_entry.
  cbn [world rules journal uuids].
  destruct (db_fails env (stmts (world s))); cbn [negb andb]; [reflexivity|].
  destruct (forallb Rule_scans (rules s)); reflexivity.
Qed.

(** X23: the rules table keeps one rule per id. [POST /v1/rules] never
    produces two rules with the same id (an insert whose UUID is taken
    fails), and an answer other than 201 means the table is exactly as
    before; [GET /v1/rules] changes nothing in it. *)
Theorem rule_keys_stay_unique {C} env (ext : Ext C) c (s : Server C) :
  rule_keys_unique s ->
  rule_keys_unique (snd (CreateRule env ext c s)) /\
  (reply_code (fst (CreateRule env ext c s)) <> StatusCreated ->
   rules (snd (CreateRule env ext c s)) = rules s) /\
  rules (snd (GetRules env s)) = rules s.
Proof.
  intros Huniq. unfold rule_keys_unique in *.
  split; [|split].
  - destruct (decode_rule ext (Body c)) as [rule|] eqn:Hdec.
    + rewrite (CreateRule_run env ext c s rule Hdec). cbn zeta.
      destruct (db_fails env (stmts (world s)) ||
                existsb (String.eqb (New_uuid ext (uuids s)))
                  (map Rule.ID (rules s))) eqn:Hfail; cbn [snd rules].
      * exact Huniq.
      * apply orb_false_iff in Hfail. destruct Hfail as [_ Hfresh].
        rewrite map_app. apply NoDup_app. split; [exact Huniq|].
        split; [|cbn; apply NoDup_singleton].
        intros k Hk Hnew. cbn in Hnew. apply list_elem_of_In in Hnew.
        destruct Hnew as [Hnew|[]].
        assert (Hid : k = New_uuid ext (uuids s)).
        { rewrite <- Hnew. destruct (Rule.Enabled rule); reflexivity. }
        rewrite Hid in Hk.
        assert (Hex : existsb (String.eqb (New_uuid ext (uuids s)))
                        (map Rule.ID (rules s)) = true).
        { apply existsb_exists. exists (New_uuid ext (uuids s)). split.
          - apply list_elem_of_In. exact Hk.
          - apply String.eqb_refl. }
        rewrite Hex in Hfresh. discriminate Hfresh.
    + unfold CreateRule. rewrite Hdec. exact Huniq.
  - intros Hcode. destruct (decode_rule ext (Body c)) as [rule|] eqn:Hdec.
    + rewrite (CreateRule_run env ext c s rule Hdec) in *. cbn zeta in *.
      destruct (db_fails env (stmts (world s)) ||
                existsb (String.eqb (New_uuid ext (uuids s)))
                  (map Rule.ID (rules s))); [reflexivity|].
      exfalso. apply Hcode. reflexivity.
    + unfold CreateRule. rewrite Hdec. reflexivity.
  - rewrite GetRules_run. cbn zeta.
    destruct (negb (db_fails env (stmts (world s))) &&
              forallb Rule_scans (rules s)); reflexivity.
Qed.

Lemma rule_keys_stay_unique_witness :
  rule_keys_unique
    (snd (CreateRule env_ok (sample_ext (Some (sample_rule "a" "r1" true)))
            (request ∅ ∅ "{...}") (server0 world0))).
Proof.
  apply (rule_keys_stay_unique env_ok
           (sample_ext (Some (sample_rule "a" "r1" true)))
           (request ∅ ∅ "{...}") (server0 world0)).
  constructor.
Defined.

Lemma forallb_app_false {A} (f : A -> bool) (l : list A) (x : A) :
  f x = false -> forallb f (l ++ [x]) = false.
Proof.
  intros Hx. rewrite forallb_app. cbn [forallb]. rewrite Hx.
  apply andb_false_r.
Qed.

(** X24: create then list. A rule created with conditions, or with
    actions, cannot be read back: once [POST /v1/rules] has answered 201
    for it, every [GET /v1/rules] answers 500 "Failed to query rules"
    (the listing reads the whole table: no filter, no pagination), logs
    one error line, and leaves the table as it is. *)
Theorem created_rule_breaks_the_listing {C} env (ext : Ext C) c (s : Server C) sent :
  decode_rule ext (Body c) = Some sent ->
  reply_code (fst (CreateRule env ext c s)) = StatusCreated ->
  Rule.Conditions sent <> None \/ Rule.Actions sent <> [] ->
  let s1 := snd (CreateRule env ext c s) in
  fst (GetRules env s1) =
    ReplyH StatusInternalServerError {[ "error" := JStr "Failed to query rules" ]} /\
  rules (snd (GetRules env s1)) = rules s1 /\
  journal (snd (GetRules env s1)) =
    journal s1 ++ [mkEntry ErrorLevel "Failed to query rules" ∅] /\
  exists stored, rules s1 = rules s ++ [stored] /\
                 fst (CreateRule env ext c s) = ReplyRule StatusCreated stored.
Proof.
  intros Hdec Hcode Hfields. cbn zeta.
  rewrite (CreateRule_run env ext c s sent Hdec) in *. cbn zeta in *.
  destruct (db_fails env (stmts (world s)) ||
            existsb (String.eqb (New_uuid ext (uuids s))) (map Rule.ID (rules s))).
  { cbn in Hcode. discriminate Hcode. }
  cbn [fst snd]. rewrite GetRules_run. cbn zeta. cbn [rules journal].
  set (stored := if Rule.Enabled sent then _ else _).
  assert (Hscan : Rule_scans stored = false).
  { unfold Rule_scans, is_nil.
    assert (Hc : Rule.Conditions stored = Rule.Conditions sent)
      by (subst stored; destruct (Rule.Enabled sent); reflexivity).
    assert (Ha : Rule.Actions stored = Rule.Actions sent)
      by (subst stored; destruct (Rule.Enabled sent); reflexivity).
    rewrite Hc, Ha.
    destruct (Rule.Conditions sent); [reflexivity|].
    destruct (Rule.Actions sent); [|reflexivity].
    destruct Hfields as [H|H]; destruct (H eq_refl). }
  rewrite (forallb_app_false _ _ _ Hscan), andb_false_r.
  cbn [fst snd rules journal]. split_and!; try reflexivity.
  exists stored. split; reflexivity.
Qed.

Lemma created_rule_breaks_the_listing_witness :
  reply_code
    (fst (GetRules env_ok
            (snd (CreateRule env_ok
                    (sample_ext (Some (sample_rule "a" "r1" true)))
                    (request ∅ ∅ "{...}") (server0 world0)))))
  = StatusInternalServerError.
Proof.
  pose proof (created_rule_breaks_the_listing env_ok
                (sample_ext (Some (sample_rule "a" "r1" true)))
                (request ∅ ∅ "{...}") (server0 world0)
                (sample_rule "a" "r1" true) eq_refl) as H.
  assert (Hcode : reply_code
            (fst (CreateRule env_ok
                    (sample_ext (Some (sample_rule "a" "r1" true)))
                    (request ∅ ∅ "{...}") (server0 world0))) = StatusCreated)
    by (vm_compute; reflexivity).
  assert (Hfields : Rule.Conditions (sample_rule "a" "r1" true) <> None \/
                    Rule.Actions (sample_rule "a" "r1" true) <> [])
    by (left; discriminate).
  specialize (H Hcode Hfields).
  cbn zeta in H. destruct H as [H _].
  rewrite H. reflexivity.
Defined.
